(** * RecAE: the ECG5000 data-preparation script

    A shallow embedding of [utils/data_preparation.py] and the properties
    of its stages: Fetcher, Extractor, Loader, Partitioner, Serializer.

    Conventions of the embedding.
    - Python floats are idealised as exact rationals ([Q]) for the
      properties that do not depend on rounding; lines 87-98 are given a
      second time on binary64 numbers (module [Binary64]) for those that
      do.  A division whose divisor is zero raises [ZeroDivisionError],
      as Python's does.
    - Exceptions are values of [exn]; every fallible step returns a
      [result], and the first exception aborts the run.
    - The filesystem is a finite map from paths to files; it is
      writable, and the calls that create or write a file succeed.  The
      properties of the download stage say on which filesystems that is
      what the real calls do.
    - The library calls the script makes (scikit-learn's
      [train_test_split], pandas' [read_table], [os], [zipfile]) are
      embedded by what they do on the arguments the script passes. *)

From Stdlib Require Import Floats.
From Stdlib Require Import ZArith QArith Qround Qpower Lqa List Permutation Lia Bool Ascii String.
From stdpp Require Import gmap strings.
Import ListNotations.

Local Open Scope nat_scope.

(** ** Exceptions and the error monad *)

Inductive exn : Set :=
| ZeroDivisionError
| ValueError
| IndexError
| FileNotFoundError
| IsADirectoryError
| UnicodeDecodeError
| BadZipFile
| EmptyDataError
| ConnectionError.

Inductive result (A : Type) : Type :=
| Ok (a : A)
| Raise (e : exn).
Arguments Ok {A} a.
Arguments Raise {A} e.

Definition bind {A B : Type} (m : result A) (k : A -> result B) : result B :=
  match m with
  | Ok a => k a
  | Raise e => Raise e
  end.

Notation "'let*' x ':=' m 'in' k" := (bind m (fun x => k))
  (at level 10, x pattern, m at level 100, k at level 200).

Definition raises {A : Type} (m : result A) : Prop := exists e, m = Raise e.

Fixpoint mapM {A B : Type} (f : A -> result B) (l : list A) : result (list B) :=
  match l with
  | [] => Ok []
  | a :: l' => let* b := f a in let* bs := mapM f l' in Ok (b :: bs)
  end.

(** ** Numbers *)

(** [a / b] on Python floats, taken as exact rationals: the quotient is
    not rounded. *)
Definition py_div (a b : Q) : result Q :=
  if Qeq_bool b 0 then Raise ZeroDivisionError else Ok (a / b)%Q.

(** [float(len(x))]. *)
Definition len_Q {A : Type} (l : list A) : Q := inject_Z (Z.of_nat (length l)).

(** ** numpy random states and scikit-learn's splitters *)

(** What the script needs of [numpy.random.RandomState] and of the index
    selection of [StratifiedShuffleSplit], neither of which is code of
    this repository.  [mtrand_seed s] is [RandomState(s)];
    [rng_permutation g n] is [g.permutation(n)], a shuffle of
    [0 .. n-1]; [stratified_indices g y n_train n_test] is the pair of
    index arrays (train, test) that
    [StratifiedShuffleSplit(train_size=n_train, test_size=n_test)]
    yields for the labels [y] once its checks have passed: [n_train]
    train positions, and with the test positions every position once.
    How the draw spreads the classes over the two sides is left open. *)
Class RandomState : Type := {
  rng : Type;
  mtrand_seed : Z -> rng;
  rng_permutation : rng -> nat -> list nat * rng;
  rng_permutation_perm :
    forall g n, Permutation (fst (rng_permutation g n)) (seq 0 n);
  stratified_indices : rng -> list Q -> nat -> nat -> list nat * list nat * rng;
  stratified_indices_perm :
    forall g y n_train n_test,
      n_train + n_test = length y ->
      Permutation (fst (fst (stratified_indices g y n_train n_test))
                   ++ snd (fst (stratified_indices g y n_train n_test)))
                  (seq 0 (length y));
  stratified_indices_length :
    forall g y n_train n_test,
      n_train + n_test = length y ->
      length (fst (fst (stratified_indices g y n_train n_test))) = n_train
}.

Section Sklearn.
Context {RS : RandomState}.

(** [check_random_state(seed)]: [None] is the global generator, an
    integer seeds a fresh one. *)
Definition check_random_state (global : rng) (seed : option Z) : rng :=
  match seed with
  | None => global
  | Some s => mtrand_seed s
  end.

(** The global generator after a call that drew from
    [check_random_state global seed] and left it in state [g']. *)
Definition commit_random_state (global : rng) (seed : option Z) (g' : rng) : rng :=
  match seed with
  | None => g'
  | Some _ => global
  end.

(** [_validate_shuffle_split(n_samples, test_size, train_size=None)]
    for a float [test_size]:
    [if test_size <= 0 or test_size >= 1: raise ValueError];
    [n_test = ceil(test_size * n_samples)];
    [n_train = n_samples - n_test];
    [if n_train == 0: raise ValueError].
    The product is exact here; [Binary64.validate_shuffle_split] below
    rounds it as Python does, which can move [n_test] by one. *)
Definition validate_shuffle_split (n_samples : nat) (test_size : Q)
  : result (nat * nat) :=
  if Qle_bool test_size 0 || Qle_bool 1 test_size then Raise ValueError
  else
    let n_test := Z.to_nat (Qceiling (test_size * inject_Z (Z.of_nat n_samples))) in
    let n_train := n_samples - n_test in
    if n_train =? 0 then Raise ValueError else Ok (n_train, n_test).

(** [X.iloc[indices]]. *)
Definition iloc {A : Type} (X : list A) (indices : list nat) : result (list A) :=
  mapM (fun i => match nth_error X i with
                 | Some r => Ok r
                 | None => Raise IndexError
                 end) indices.

(** [ShuffleSplit._iter_indices]: the first [n_test] entries of the
    shuffle are the test indices, the next [n_train] the train ones. *)
Definition shuffle_split_indices (g : rng) (n_samples n_train n_test : nat)
  : list nat * list nat * rng :=
  let '(permutation, g') := rng_permutation g n_samples in
  let ind_test := firstn n_test permutation in
  let ind_train := firstn n_train (skipn n_test permutation) in
  (ind_train, ind_test, g').

(** The classes of [y] ([np.unique]) and their sizes ([np.bincount]). *)
Fixpoint unique (y : list Q) : list Q :=
  match y with
  | [] => []
  | c :: y' => c :: List.filter (fun d => negb (Qeq_bool c d)) (unique y')
  end.

Definition class_count (y : list Q) (c : Q) : nat :=
  length (List.filter (Qeq_bool c) y).

(** The checks of [StratifiedShuffleSplit._iter_indices] before it
    draws: [if np.min(class_counts) < 2: raise ValueError];
    [if n_train < n_classes: raise ValueError];
    [if n_test < n_classes: raise ValueError]. *)
Definition stratified_checks (y : list Q) (n_train n_test : nat) : result unit :=
  let classes := unique y in
  let n_classes := length classes in
  if existsb (fun c => class_count y c <? 2) classes then Raise ValueError
  else if n_train <? n_classes then Raise ValueError
  else if n_test <? n_classes then Raise ValueError
  else Ok tt.

(** [train_test_split(X, random_state=.., test_size=.., stratify=..)]:
    the sizes are validated, the generator is chosen, the index arrays
    are drawn by [ShuffleSplit] or, with [stratify], by
    [StratifiedShuffleSplit] (which first compares the lengths of [X]
    and the labels), and the rows are taken by position.  Returns the
    train part, the test part and the global generator. *)
Definition train_test_split {A : Type} (global : rng) (X : list A)
    (random_state : option Z) (test_size : Q) (stratify : option (list Q))
  : result (list A * list A * rng) :=
  let n_samples := length X in
  let* (n_train, n_test) := validate_shuffle_split n_samples test_size in
  let g := check_random_state global random_state in
  let* (train, test, g') :=
    match stratify with
    | None => Ok (shuffle_split_indices g n_samples n_train n_test)
    | Some y =>
        if negb (length y =? n_samples) then Raise ValueError
        else
          let* _ := stratified_checks y n_train n_test in
          Ok (stratified_indices g y n_train n_test)
    end in
  let* X_train := iloc X train in
  let* X_test := iloc X test in
  Ok (X_train, X_test, commit_random_state global random_state g').

End Sklearn.

(** ** The Partitioner (lines 83-114) *)

(** A row of [df] once its first column is called [Class]:
    [df.Class] and [.iloc[:, 0]] are [Class], [.iloc[:, 1:]] is [signal]. *)
Record row : Type := { Class : Q; signal : list Q }.

(** The parsed command line. *)
Record args : Type := {
  download : Z;
  perc_tr_n : Q;
  perc_val_n : Q;
  perc_val_an : Q
}.

(** The local variables of lines 83-98. *)
Record splits : Type := {
  normal : list row;
  anomaly : list row;
  X_train_n : list row;
  X_val_n : list row;
  X_test_n : list row;
  n_anol : Q;
  perc_anol_val_a : Q;
  perc_anol_test_a : Q;
  X_val_a : list row;
  X_test_a : list row
}.

(** The eight arrays that are saved. *)
Record arrays : Type := {
  X_train : list (list Q);  y_train : list Q;
  X_val : list (list Q);    y_val : list Q;
  X_val_p : list (list Q);  y_val_p : list Q;
  X_test : list (list Q);   y_test : list Q
}.

Definition is_normal (r : row) : bool := Qeq_bool (Class r) 1.

Section Partitioner.
Context {RS : RandomState}.

(** Lines 83-98. *)
Definition split_rows (global : rng) (a : args) (df : list row)
  : result (splits * rng) :=
  let normal := List.filter is_normal df in
  let anomaly := List.filter (fun r => negb (is_normal r)) df in
  let* (X_train_n, X_val_n, g1) :=
    train_test_split global normal (Some 88%Z) (1 - perc_tr_n a)%Q None in
  let* (X_val_n, X_test_n, g2) :=
    train_test_split g1 X_val_n (Some 88%Z) (1 - perc_val_n a)%Q None in
  let perc_anol_all := perc_val_an a in
  let* n_anol := py_div (len_Q X_train_n * perc_anol_all)%Q (1 - perc_anol_all)%Q in
  let* perc_anol_val_a := py_div n_anol (len_Q anomaly) in
  let perc_anol_test_a := (1 - perc_anol_val_a)%Q in
  let* (X_val_a, X_test_a, g3) :=
    train_test_split g2 anomaly (Some 88%Z) perc_anol_test_a
                     (Some (map Class anomaly)) in
  Ok ({| normal := normal; anomaly := anomaly;
         X_train_n := X_train_n; X_val_n := X_val_n; X_test_n := X_test_n;
         n_anol := n_anol; perc_anol_val_a := perc_anol_val_a;
         perc_anol_test_a := perc_anol_test_a;
         X_val_a := X_val_a; X_test_a := X_test_a |}, g3).

(** Lines 101-114. *)
Definition assemble (s : splits) : arrays :=
  {| X_train := map signal (X_train_n s);
     y_train := map Class (X_train_n s);
     X_val := map signal (X_val_n s) ++ map signal (X_val_a s);
     y_val := map Class (X_val_n s) ++ map Class (X_val_a s);
     X_val_p := map signal (X_val_n s);
     y_val_p := map Class (X_val_n s);
     X_test := map signal (X_test_n s) ++ map signal (X_test_a s);
     y_test := map Class (X_test_n s) ++ map Class (X_test_a s) |}.

Definition partition (global : rng) (a : args) (df : list row)
  : result (arrays * rng) :=
  let* (s, g) := split_rows global a df in
  Ok (assemble s, g).

End Partitioner.

(** What lines 83-98 have computed when they complete. *)
Record split_spec (a : args) (df : list row) (s : splits) : Prop := {
  spec_normal : normal s = List.filter is_normal df;
  spec_anomaly : anomaly s = List.filter (fun r => negb (is_normal r)) df;
  spec_normal_perm :
    Permutation (X_train_n s ++ X_val_n s ++ X_test_n s) (normal s);
  spec_anomaly_perm : Permutation (X_val_a s ++ X_test_a s) (anomaly s);
  spec_train_nonempty : 0 < length (X_train_n s);
  spec_val_a_nonempty : 0 < length (X_val_a s);
  spec_test_a_nonempty : 0 < length (X_test_a s);
  spec_n_anol :
    py_div (len_Q (X_train_n s) * perc_val_an a)%Q (1 - perc_val_an a)%Q
    = Ok (n_anol s);
  spec_perc_val :
    py_div (n_anol s) (len_Q (anomaly s)) = Ok (perc_anol_val_a s);
  spec_perc_test : perc_anol_test_a s = (1 - perc_anol_val_a s)%Q;
  spec_test_size : (0 < perc_anol_test_a s)%Q /\ (perc_anol_test_a s < 1)%Q;
  spec_test_a_length :
    length (X_test_a s)
    = Z.to_nat (Qceiling (perc_anol_test_a s * len_Q (anomaly s)));
  spec_train_n_length :
    length (X_train_n s)
    = length (normal s)
      - Z.to_nat (Qceiling ((1 - perc_tr_n a) * len_Q (normal s)))
}.




(** [X] and [y] are parallel arrays over records of [df]: equally long,
    and at every position the row of [X] and the entry of [y] are the
    signal and the class of one record of [df]. *)
Definition parallel_arrays (df : list row) (X : list (list Q)) (y : list Q) : Prop :=
  length X = length y /\
  forall i, i < length X ->
    exists r, In r df /\ nth_error X i = Some (signal r)
              /\ nth_error y i = Some (Class r).

(** A partition as a list of records: features and label, side by side. *)
Definition records (X : list (list Q)) (y : list Q) : list (list Q * Q) :=
  combine X y.

(** ** Lines 87-98 in binary64

    The definitions above take the percentages as exact rationals.  The
    sizes of the parts, and every quantity of lines 91-94, depend on the
    rounding of Python's floats: here are the same lines on binary64
    numbers, for the properties that depend on it.  The rows and the
    draws of the generator are as above. *)

(** [float(n)] for a Python [int]. *)
Definition float_of_nat (n : nat) : float :=
  SF2Prim (binary_normalize prec emax (Z.of_nat n) 0 false).

(** [math.ceil(x)], which raises on NaN and on the infinities. *)
Definition math_ceil (x : float) : option Z :=
  match Prim2SF x with
  | S754_zero _ => Some 0%Z
  | S754_finite s m e =>
      let n := if s then Z.neg m else Z.pos m in
      Some (match e with
            | Z0 => n
            | Zpos p => n * 2 ^ Zpos p
            | Zneg p => - ((- n) / 2 ^ Zpos p)
            end)%Z
  | S754_infinity _ | S754_nan => None
  end.

(** The number a finite double stands for. *)
Definition exact (x : float) : Q :=
  match Prim2SF x with
  | S754_finite s m e => (inject_Z (if s then Z.neg m else Z.pos m) * 2 ^ e)%Q
  | _ => 0%Q
  end.

Module Binary64.

(** The parsed command line, [type = float]. *)
Record args : Type := {
  download : Z;
  perc_tr_n : float;
  perc_val_n : float;
  perc_val_an : float
}.

(** The local variables of lines 83-98. *)
Record splits : Type := {
  normal : list row;
  anomaly : list row;
  X_train_n : list row;
  X_val_n : list row;
  X_test_n : list row;
  n_anol : float;
  perc_anol_val_a : float;
  perc_anol_test_a : float;
  X_val_a : list row;
  X_test_a : list row
}.

(** [a / b] on Python floats. *)
Definition py_div (a b : float) : result float :=
  if (b =? 0)%float then Raise ZeroDivisionError else Ok (a / b)%float.

(** [_validate_shuffle_split(n_samples, test_size, train_size=None)]
    for a float [test_size]:
    [if test_size <= 0 or test_size >= 1: raise ValueError];
    [n_test = ceil(test_size * n_samples)] (a NaN [test_size] passes the
    comparisons and makes [ceil] raise [ValueError]);
    [n_train = n_samples - n_test];
    [if n_train == 0: raise ValueError].
    The splitter then validates the two integer sizes again and raises
    [ValueError] unless [0 < n_test < n_samples]. *)
Definition validate_shuffle_split (n_samples : nat) (test_size : float)
  : result (nat * nat) :=
  if (test_size <=? 0)%float || (1 <=? test_size)%float then Raise ValueError
  else
    match math_ceil (test_size * float_of_nat n_samples) with
    | None => Raise ValueError
    | Some n_test =>
        let n_train := (Z.of_nat n_samples - n_test)%Z in
        if (n_train =? 0)%Z then Raise ValueError
        else if (n_test <=? 0)%Z || (Z.of_nat n_samples <=? n_test)%Z
             then Raise ValueError
             else Ok (Z.to_nat n_train, Z.to_nat n_test)
    end.

Section Partitioner.
Context {RS : RandomState}.

(** [train_test_split(X, random_state=.., test_size=.., stratify=..)],
    as above but for the validation of the sizes. *)
Definition train_test_split {A : Type} (global : rng) (X : list A)
    (random_state : option Z) (test_size : float) (stratify : option (list Q))
  : result (list A * list A * rng) :=
  let n_samples := length X in
  let* (n_train, n_test) := validate_shuffle_split n_samples test_size in
  let g := check_random_state global random_state in
  let* (train, test, g') :=
    match stratify with
    | None => Ok (shuffle_split_indices g n_samples n_train n_test)
    | Some y =>
        if negb (length y =? n_samples) then Raise ValueError
        else
          let* _ := stratified_checks y n_train n_test in
          Ok (stratified_indices g y n_train n_test)
    end in
  let* X_train := iloc X train in
  let* X_test := iloc X test in
  Ok (X_train, X_test, commit_random_state global random_state g').

(** Lines 83-98. *)
Definition split_rows (global : rng) (a : args) (df : list row)
  : result (splits * rng) :=
  let normal := List.filter is_normal df in
  let anomaly := List.filter (fun r => negb (is_normal r)) df in
  let* (X_train_n, X_val_n, g1) :=
    train_test_split global normal (Some 88%Z) (1 - perc_tr_n a)%float None in
  let* (X_val_n, X_test_n, g2) :=
    train_test_split g1 X_val_n (Some 88%Z) (1 - perc_val_n a)%float None in
  let perc_anol_all := perc_val_an a in
  let* n_anol :=
    py_div (float_of_nat (length X_train_n) * perc_anol_all)%float
           (1 - perc_anol_all)%float in
  let* perc_anol_val_a := py_div n_anol (float_of_nat (length anomaly)) in
  let perc_anol_test_a := (1 - perc_anol_val_a)%float in
  let* (X_val_a, X_test_a, g3) :=
    train_test_split g2 anomaly (Some 88%Z) perc_anol_test_a
                     (Some (map Class anomaly)) in
  Ok ({| normal := normal; anomaly := anomaly;
         X_train_n := X_train_n; X_val_n := X_val_n; X_test_n := X_test_n;
         n_anol := n_anol; perc_anol_val_a := perc_anol_val_a;
         perc_anol_test_a := perc_anol_test_a;
         X_val_a := X_val_a; X_test_a := X_test_a |}, g3).

End Partitioner.

End Binary64.

(** The percentages of a command line as exact rationals. *)
Definition exact_args (a : Binary64.args) : args :=
  {| download := Binary64.download a;
     perc_tr_n := exact (Binary64.perc_tr_n a);
     perc_val_n := exact (Binary64.perc_val_n a);
     perc_val_an := exact (Binary64.perc_val_an a) |}.

(** ** Files *)

Inductive file : Type :=
| Directory
| Text (s : string)
| Zip (members : list (string * string))
| Npy2 (a : list (list Q))
| Npy1 (v : list Q).

(** A leading [./] does not change what a relative path names. *)
Definition norm (p : string) : string :=
  match p with
  | String "." (String "/" rest) => rest
  | _ => p
  end.

Definition path_exists (p : string) (fs : gmap string file) : bool :=
  match fs !! norm p with
  | Some _ => true
  | None => false
  end.

(** [os.mkdir(p)] where [p] does not exist and its parent is a
    directory: the call succeeds.  Where the parent is missing or is a
    regular file the real call raises; [download_ready] below names the
    filesystems on which line 40 is within this case. *)
Definition os_mkdir (p : string) (fs : gmap string file) : gmap string file :=
  <[norm p := Directory]> fs.

(** [os.remove(p)]. *)
Definition os_remove (p : string) (fs : gmap string file)
  : result (gmap string file) :=
  match fs !! norm p with
  | None => Raise FileNotFoundError
  | Some Directory => Raise IsADirectoryError
  | Some _ => Ok (delete (norm p) fs)
  end.

(** [zip.extractall(save_path)] for members that are files with plain
    names (see [plain_name] below): each is written under [save_path]
    by its name.  Directory entries and names with a path in them are
    outside the model. *)
Definition extractall (members : list (string * string)) (save_path : string)
    (fs : gmap string file) : gmap string file :=
  fold_left (fun fs m => <[norm (save_path ++ "/" ++ fst m)%string := Text (snd m)]> fs)
            members fs.

(** The files removed at lines 59-64, in that order. *)
Definition useless_files : list string :=
  [ "data/ECG5000.zip";
    "data/ECG5000/ECG5000_TRAIN.arff";
    "data/ECG5000/ECG5000_TRAIN.ts";
    "data/ECG5000/ECG5000_TEST.ts";
    "data/ECG5000/ECG5000_TEST.arff";
    "data/ECG5000/ECG5000.txt" ]%string.

Fixpoint remove_all (ps : list string) (fs : gmap string file)
  : result (gmap string file) :=
  match ps with
  | [] => Ok fs
  | p :: ps' => let* fs' := os_remove p fs in remove_all ps' fs'
  end.

(** Lines 53-64: open the archive, extract it, remove the useless files. *)
Definition extractor (fs : gmap string file) : result (gmap string file) :=
  let file_name := "data/ECG5000.zip"%string in
  let save_path := "data/ECG5000"%string in
  match fs !! norm file_name with
  | None => Raise FileNotFoundError
  | Some (Zip members) => remove_all useless_files (extractall members save_path fs)
  | Some Directory => Raise IsADirectoryError
  | Some _ => Raise BadZipFile
  end.

(** [download_url(url, save_path)]: the body of the response is written
    to [save_path], which is taken not to be a directory; [network url]
    is [None] when the request fails. *)
Definition download_url (network : string -> option file) (url save_path : string)
    (fs : gmap string file) : result (gmap string file) :=
  match network url with
  | None => Raise ConnectionError
  | Some body => Ok (<[norm save_path := body]> fs)
  end.

(** Lines 37-64. *)
Definition fetch_and_extract (network : string -> option file) (a : args)
    (fs : gmap string file) : result (gmap string file) :=
  if negb (download a =? 0)%Z then
    let data_path := "data/ECG5000"%string in
    let fs := if path_exists data_path fs then fs else os_mkdir data_path fs in
    let url := "http://www.timeseriesclassification.com/Downloads/ECG5000.zip"%string in
    let save_path := "data/ECG5000.zip"%string in
    let* fs := download_url network url save_path fs in
    extractor fs
  else Ok fs.

(** [open(p)] for reading a text file. *)
Definition read_text (p : string) (fs : gmap string file) : result string :=
  match fs !! norm p with
  | None => Raise FileNotFoundError
  | Some Directory => Raise IsADirectoryError
  | Some (Text s) => Ok s
  | Some _ => Raise UnicodeDecodeError
  end.

(** ** The Loader (lines 73-80) *)

(** Python's [\s] and [str.isspace] on ASCII text: tab, line feed,
    vertical tab, form feed, carriage return, the four separators
    0x1c-0x1f, and the space. *)
Definition isspace (c : ascii) : bool :=
  let n := nat_of_ascii c in
  ((9 <=? n) && (n <=? 13)) || ((28 <=? n) && (n <=? 32)).

Fixpoint lstrip (s : list ascii) : list ascii :=
  match s with
  | [] => []
  | c :: s' => if isspace c then lstrip s' else s
  end.

(** [line.strip()]. *)
Definition strip (s : list ascii) : list ascii := rev (lstrip (rev (lstrip s))).

(** [re.split(r'\s{2,}', s)], scanning left to right: [field] is the
    field being read and [ws] the whitespace run just read, both
    reversed.  A run of one character stays in the field; a run of two or
    more ends it. *)
Fixpoint re_split_from (field ws s : list ascii) : list (list ascii) :=
  match s with
  | [] =>
      match ws with
      | [] | [_] => [rev (ws ++ field)]
      | _ => [rev field; []]
      end
  | c :: s' =>
      if isspace c then re_split_from field (c :: ws) s'
      else
        match ws with
        | [] | [_] => re_split_from (c :: ws ++ field) [] s'
        | _ => rev field :: re_split_from [c] [] s'
        end
  end.

Definition re_split (s : list ascii) : list (list ascii) := re_split_from [] [] s.

(** The lines of a text file, ended by line feeds.  Python ends a line
    at a carriage return as well; the texts of [render] below hold
    none. *)
Fixpoint lines_from (line s : list ascii) : list (list ascii) :=
  match s with
  | [] => [rev line]
  | c :: s' =>
      if Ascii.eqb c "010" then rev line :: lines_from [] s'
      else lines_from (c :: line) s'
  end.

Definition lines (s : string) : list (list ascii) :=
  lines_from [] (list_ascii_of_string s).

(** A blank line, which [read_table] skips. *)
Definition is_blank (fields : list (list ascii)) : bool :=
  match fields with
  | [] => true
  | [f] => forallb isspace f
  | _ => false
  end.

Inductive col_label : Type :=
| ColInt (i : nat)
| ColStr (s : string).

(** A table: its column labels and its rows.  The row index, which no
    step of the script reads, is left out. *)
Record DataFrame : Type := {
  columns : list col_label;
  values : list (list Q)
}.

Section Loader.
(** The conversion of a field to a number. *)
Variable to_numeric : list ascii -> Q.

(** [pd.read_table(.., sep=r'\s{2,}', engine='python', header=None)]
    on the text of the file: every line is stripped and split, blank
    lines are skipped, the columns are numbered from the first row.
    The rows are kept as they are split; pandas refuses a row with more
    fields than the first ([ParserError]) and fills a shorter one, so
    the two agree on the files whose rows have one width, which are the
    ones the properties of the Loader are about (see [table] below). *)
Definition read_table (text : string) : result DataFrame :=
  let rows :=
    List.filter (fun r => negb (is_blank r))
                (map (fun l => re_split (strip l)) (lines text)) in
  match rows with
  | [] => Raise EmptyDataError
  | r :: _ =>
      Ok {| columns := map ColInt (seq 0 (length r));
            values := map (map to_numeric) rows |}
  end.

(** [pd.concat([a, b])]: the rows of [a], then the rows of [b]; the
    columns are the union of the two ranges of column numbers.  Rows
    are not realigned: this is [pd.concat] for two frames of the same
    width. *)
Definition concat (a b : DataFrame) : DataFrame :=
  {| columns := if length (columns b) <=? length (columns a)
                then columns a else columns b;
     values := values a ++ values b |}.

(** Lines 78-80: [new_columns[0] = 'Class']. *)
Definition rename_first (df : DataFrame) : result DataFrame :=
  match columns df with
  | [] => Raise IndexError
  | _ :: new_columns =>
      Ok {| columns := ColStr "Class" :: new_columns; values := values df |}
  end.

(** A row of the frame by its columns: column 0, then the others. *)
Definition to_row (r : list Q) : result row :=
  match r with
  | [] => Raise IndexError
  | c :: cs => Ok {| Class := c; signal := cs |}
  end.

(** Lines 73-80. *)
Definition loader (fs : gmap string file) : result DataFrame :=
  let* train_txt := read_text "./data/ECG5000/ECG5000_TRAIN.txt" fs in
  let* train := read_table train_txt in
  let* test_txt := read_text "./data/ECG5000/ECG5000_TEST.txt" fs in
  let* test := read_table test_txt in
  let df := concat train test in
  rename_first df.

End Loader.

(** ** The Serializer (lines 117-130)

    [np.save] into a directory that exists and can be written. *)

Definition np_save2 (p : string) (a : list (list Q)) (fs : gmap string file)
  : gmap string file := <[norm p := Npy2 a]> fs.

Definition np_save1 (p : string) (v : list Q) (fs : gmap string file)
  : gmap string file := <[norm p := Npy1 v]> fs.

Definition serializer (o : arrays) (fs : gmap string file) : gmap string file :=
  let fs := np_save2 "./data/ECG5000/numpy/X_train.npy" (X_train o) fs in
  let fs := np_save1 "./data/ECG5000/numpy/y_train.npy" (y_train o) fs in
  let fs := np_save2 "./data/ECG5000/numpy/X_val.npy" (X_val o) fs in
  let fs := np_save1 "./data/ECG5000/numpy/y_val.npy" (y_val o) fs in
  let fs := np_save2 "./data/ECG5000/numpy/X_val_p.npy" (X_val_p o) fs in
  let fs := np_save1 "./data/ECG5000/numpy/y_val_p.npy" (y_val_p o) fs in
  let fs := np_save2 "./data/ECG5000/numpy/X_test.npy" (X_test o) fs in
  np_save1 "./data/ECG5000/numpy/y_test.npy" (y_test o) fs.

(** ** The whole script *)

Section Script.
Context {RS : RandomState}.
Variable to_numeric : list ascii -> Q.
Variable network : string -> option file.

(** [data_preparation()], from the parsed arguments, the filesystem
    and the state of numpy's global generator. *)
Definition data_preparation (global : rng) (a : args) (fs : gmap string file)
  : result (gmap string file * rng) :=
  let* fs := fetch_and_extract network a fs in
  let data_path := "data/ECG5000/numpy"%string in
  let fs := if path_exists data_path fs then fs else os_mkdir data_path fs in
  let* df := loader to_numeric fs in
  let* rows := mapM to_row (values df) in
  let* (o, g) := partition global a rows in
  Ok (serializer o fs, g).

(** The module as run: line 11 seeds the global generator. *)
Definition main (a : args) (fs : gmap string file) : result (gmap string file) :=
  let* (fs', _) := data_preparation (mtrand_seed 88%Z) a fs in
  Ok fs'.

End Script.

(** The eight files of lines 117-130 hold the arrays [o]. *)
Definition saved (o : arrays) (fs : gmap string file) : Prop :=
  fs !! "data/ECG5000/numpy/X_train.npy"%string = Some (Npy2 (X_train o)) /\
  fs !! "data/ECG5000/numpy/y_train.npy"%string = Some (Npy1 (y_train o)) /\
  fs !! "data/ECG5000/numpy/X_val.npy"%string = Some (Npy2 (X_val o)) /\
  fs !! "data/ECG5000/numpy/y_val.npy"%string = Some (Npy1 (y_val o)) /\
  fs !! "data/ECG5000/numpy/X_val_p.npy"%string = Some (Npy2 (X_val_p o)) /\
  fs !! "data/ECG5000/numpy/y_val_p.npy"%string = Some (Npy1 (y_val_p o)) /\
  fs !! "data/ECG5000/numpy/X_test.npy"%string = Some (Npy2 (X_test o)) /\
  fs !! "data/ECG5000/numpy/y_test.npy"%string = Some (Npy1 (y_test o)).

(** Shapes of text that the separator [\s{2,}] is sensitive to: no two
    whitespace characters side by side; the last character is
    whitespace; the first character is whitespace. *)
Fixpoint no_ws_run (s : list ascii) : bool :=
  match s with
  | [] => true
  | c1 :: s' =>
      match s' with
      | [] => true
      | c2 :: _ => negb (isspace c1 && isspace c2)
      end && no_ws_run s'
  end.

Fixpoint last_is_space (s : list ascii) : bool :=
  match s with
  | [] => false
  | c :: s' =>
      match s' with
      | [] => isspace c
      | _ :: _ => last_is_space s'
      end
  end.

Definition first_is_space (s : list ascii) : bool :=
  match s with
  | [] => false
  | c :: _ => isspace c
  end.

(** Two runs end alike: both complete with the same value, or both raise
    the same exception. *)
Definition same_outcome {A S : Type} (r1 r2 : result (A * S)) : Prop :=
  match r1, r2 with
  | Ok (x1, _), Ok (x2, _) => x1 = x2
  | Raise e1, Raise e2 => e1 = e2
  | _, _ => False
  end.

(** ** A concrete generator and a small dataset *)

(** A generator whose shuffle is the reversal and whose stratified draw
    takes the leading positions for the train side. *)
Definition reversing_rng : RandomState.
Proof.
  refine {| rng := Z;
            mtrand_seed := fun s => s;
            rng_permutation := fun g n => (rev (seq 0 n), (g + 1)%Z);
            stratified_indices :=
              fun g _ n_train n_test => (seq 0 n_train, seq n_train n_test, (g + 1)%Z) |}.
  - intros g n. symmetry. apply Permutation_rev.
  - intros g y n_train n_test H. cbn [fst snd]. rewrite <- H.
    rewrite seq_app. reflexivity.
  - intros g y n_train n_test _. cbn [fst snd]. apply length_seq.
Defined.

Definition mk_row (c : Z) (x : Z) : row :=
  {| Class := inject_Z c; signal := [inject_Z x; inject_Z (x + 1)] |}.

(** Ten normal rows and six anomalous ones, of classes 2 and 3. *)
Definition toy_df : list row :=
  [ mk_row 1 10; mk_row 2 20; mk_row 1 11; mk_row 3 30; mk_row 1 12;
    mk_row 2 21; mk_row 1 13; mk_row 3 31; mk_row 1 14; mk_row 2 22;
    mk_row 1 15; mk_row 3 32; mk_row 1 16; mk_row 1 17; mk_row 1 18;
    mk_row 1 19 ]%Z.

Definition toy_args : args :=
  {| download := 0; perc_tr_n := 1 # 2; perc_val_n := 1 # 2; perc_val_an := 3 # 8 |}.

(** What lines 83-98 compute on the small dataset. *)
Definition toy_splits : splits :=
  Eval vm_compute in
    match split_rows (RS := reversing_rng) 0%Z toy_args toy_df with
    | Ok (s, _) => s
    | Raise _ =>
        {| normal := []; anomaly := []; X_train_n := []; X_val_n := [];
           X_test_n := []; n_anol := 0; perc_anol_val_a := 0;
           perc_anol_test_a := 0; X_val_a := []; X_test_a := [] |}
    end.



Definition toy_arrays : arrays := Eval vm_compute in assemble toy_splits.

Definition args_an_large : args :=
  {| download := 0; perc_tr_n := 1 # 2; perc_val_n := 1 # 2; perc_val_an := 7 # 8 |}.


(** Decimal integers with an optional sign, for the fields of the small
    files below. *)
Fixpoint digits_value (acc : Z) (s : list ascii) : Z :=
  match s with
  | [] => acc
  | c :: s' => digits_value (10 * acc + (Z.of_nat (nat_of_ascii c) - 48)) s'
  end.

Definition toy_numeric (s : list ascii) : Q :=
  match s with
  | "-"%char :: s' => inject_Z (- digits_value 0 s')
  | _ => inject_Z (digits_value 0 s)
  end.

(** The rows of [toy_df] as two text files, with the spacing of the
    dataset's files: fields set apart by two or three spaces. *)
Definition nl : string := String "010" EmptyString.

Definition toy_train_txt : string :=
  ("   1   10   11" ++ nl ++ "   2   20   21" ++ nl ++ "   1   11   12" ++ nl ++
   "   3   30   31" ++ nl ++ "   1   12   13" ++ nl ++ "   2   21   22" ++ nl)%string.

Definition toy_test_txt : string :=
  ("   1   13   14" ++ nl ++ "   3   31   32" ++ nl ++ "   1   14   15" ++ nl ++
   "   2   22   23" ++ nl ++ nl ++ "   1   15   16" ++ nl ++ "   3   32   33" ++ nl ++
   "   1  16  17" ++ nl ++ "   1  17  18" ++ nl ++ "   1  18  19" ++ nl ++
   "   1  19  20" ++ nl)%string.

Definition toy_fs : gmap string file :=
  <["data/ECG5000/ECG5000_TRAIN.txt"%string := Text toy_train_txt]>
    (<["data/ECG5000/ECG5000_TEST.txt"%string := Text toy_test_txt]>
       (<["data/ECG5000"%string := Directory]> (<["data"%string := Directory]> ∅))).

(** An archive with the seven files of the dataset, and one that lacks
    [ECG5000.txt]. *)
Definition toy_members : list (string * string) :=
  [ ("ECG5000.txt", "about"); ("ECG5000_TEST.arff", "arff");
    ("ECG5000_TEST.ts", "ts"); ("ECG5000_TEST.txt", toy_test_txt);
    ("ECG5000_TRAIN.arff", "arff"); ("ECG5000_TRAIN.ts", "ts");
    ("ECG5000_TRAIN.txt", toy_train_txt) ]%string.

Definition toy_network (url : string) : option file := Some (Zip toy_members).

Definition short_network (url : string) : option file := Some (Zip (tl toy_members)).

Definition empty_fs : gmap string file := <["data"%string := Directory]> ∅.

Definition args_download : args :=
  {| download := 1; perc_tr_n := 1 # 2; perc_val_n := 1 # 2; perc_val_an := 3 # 8 |}.

(** The percentages of [toy_args] with another [perc_val_an]. *)
Definition toy_args_b : args :=
  {| download := 0; perc_tr_n := 1 # 2; perc_val_n := 1 # 2; perc_val_an := 2 # 7 |}.

(** [toy_df] with one more anomalous row, the only one of its class. *)
Definition lonely_df : list row := toy_df ++ [mk_row 4 40].

(** The eight paths written at lines 117-130. *)
Definition output_paths : list string :=
  [ "data/ECG5000/numpy/X_train.npy"; "data/ECG5000/numpy/y_train.npy";
    "data/ECG5000/numpy/X_val.npy"; "data/ECG5000/numpy/y_val.npy";
    "data/ECG5000/numpy/X_val_p.npy"; "data/ECG5000/numpy/y_val_p.npy";
    "data/ECG5000/numpy/X_test.npy"; "data/ECG5000/numpy/y_test.npy" ]%string.

(** Lines 13-18 on the bytes of the response.  [r.iter_content(chunk_size)]
    hands the body over in pieces of [chunk_size] bytes, the last one
    possibly shorter; [fuel] bounds the number of pieces.  The loop
    writes each piece after the ones before. *)
Fixpoint iter_content (fuel chunk_size : nat) (body : list ascii)
  : list (list ascii) :=
  match fuel with
  | 0 => []
  | S fuel' =>
      match body with
      | [] => []
      | _ :: _ =>
          firstn chunk_size body
          :: iter_content fuel' chunk_size (skipn chunk_size body)
      end
  end.

Definition write_chunks (chunks : list (list ascii)) : list ascii :=
  fold_left (fun fd chunk => fd ++ chunk) chunks [].

Definition downloaded_bytes (chunk_size : nat) (body : list ascii) : list ascii :=
  write_chunks (iter_content (length body) chunk_size body).

(** A text whose fields a line of the dataset could hold: it is not
    empty, neither starts nor ends with whitespace, and has no
    whitespace run of two or more. *)
Definition clean_field (f : list ascii) : Prop :=
  f <> [] /\ first_is_space f = false /\ last_is_space f = false /\
  no_ws_run f = true.

(** A filesystem where the two text files are missing, and one where the
    training file is blank. *)
Definition blank_fs : gmap string file :=
  <["data/ECG5000/ECG5000_TRAIN.txt"%string := Text (nl ++ "   " ++ nl)%string]> toy_fs.

(** An archive as the script expects it, fetched over files left from an
    earlier run. *)
Definition stale_fs : gmap string file :=
  <["data/ECG5000/ECG5000_TRAIN.txt"%string := Text "stale"]>
    (<["data/ECG5000"%string := Directory]> empty_fs).

Definition failing_network (url : string) : option file := None.

Definition text_network (url : string) : option file := Some (Text "<html>not found</html>").

(** A filesystem with the training file only. *)
Definition train_only_fs : gmap string file :=
  <["data/ECG5000/ECG5000_TRAIN.txt"%string := Text toy_train_txt]>
    (<["data/ECG5000"%string := Directory]> empty_fs).

(** The directories only. *)
Definition dir_fs : gmap string file :=
  <["data/ECG5000"%string := Directory]> empty_fs.

(** A line of the dataset's files and a short response body. *)
Definition toy_line : list ascii := list_ascii_of_string "   1   10   11".

Definition toy_body : list ascii := list_ascii_of_string "ECG5000 archive".


Definition args64_tr06 : Binary64.args :=
  {| Binary64.download := 0; Binary64.perc_tr_n := 0x1.3333333333333p-1;
     Binary64.perc_val_n := 0.5; Binary64.perc_val_an := 0.25 |}.

Definition args64_an03 : Binary64.args :=
  {| Binary64.download := 0; Binary64.perc_tr_n := 0.5;
     Binary64.perc_val_n := 0.5; Binary64.perc_val_an := 0x1.3333333333333p-2 |}.

Definition args64_an075 : Binary64.args :=
  {| Binary64.download := 0; Binary64.perc_tr_n := 0.5;
     Binary64.perc_val_n := 0.5; Binary64.perc_val_an := 0.75 |}.


Definition args64_an_near_zero : Binary64.args :=
  {| Binary64.download := 0; Binary64.perc_tr_n := 0.5;
     Binary64.perc_val_n := 0.5; Binary64.perc_val_an := 0x1.47ae147ae147bp-7 |}.

(** [toy_df] with four more normal rows: fourteen normal rows, six
    anomalous ones. *)
Definition df_14_6 : list row :=
  toy_df ++ [ mk_row 1 50; mk_row 1 51; mk_row 1 52; mk_row 1 53 ]%Z.

(** Four normal rows and seven anomalous ones. *)
Definition df_4_7 : list row :=
  [ mk_row 1 10; mk_row 2 20; mk_row 3 30; mk_row 1 11; mk_row 2 21;
    mk_row 3 31; mk_row 1 12; mk_row 2 22; mk_row 3 32; mk_row 1 13;
    mk_row 2 23 ]%Z.

(** What lines 83-98 compute on doubles, for these command lines. *)
Definition splits_of (r : result (Binary64.splits * Z)) : Binary64.splits :=
  match r with
  | Ok (s, _) => s
  | Raise _ =>
      {| Binary64.normal := []; Binary64.anomaly := []; Binary64.X_train_n := [];
         Binary64.X_val_n := []; Binary64.X_test_n := []; Binary64.n_anol := 0;
         Binary64.perc_anol_val_a := 0; Binary64.perc_anol_test_a := 0;
         Binary64.X_val_a := []; Binary64.X_test_a := [] |}
  end.


Definition splits64_tr06 : Binary64.splits :=
  Eval vm_compute in
    splits_of (Binary64.split_rows (RS := reversing_rng) 0%Z args64_tr06 toy_df).

Definition splits64_an03 : Binary64.splits :=
  Eval vm_compute in
    splits_of (Binary64.split_rows (RS := reversing_rng) 0%Z args64_an03 df_14_6).

Definition splits64_an075 : Binary64.splits :=
  Eval vm_compute in
    splits_of (Binary64.split_rows (RS := reversing_rng) 0%Z args64_an075 df_4_7).

(** ** Filesystems and archives within the reach of the model

    [os_mkdir], [download_url] and [extractall] above are the calls on a
    filesystem where they succeed: [os.mkdir] needs the parent to be a
    directory, [open(.., 'wb')] a path that is no directory, and
    [extractall] writes one file per member only when the member names
    are plain file names.  The properties of the download stage are
    stated for such filesystems and archives. *)

Definition is_dir (o : option file) : bool :=
  match o with
  | Some Directory => true
  | _ => false
  end.

(** [data] is a directory, [data/ECG5000] is a directory or absent, and
    [data/ECG5000.zip] is no directory. *)
Definition download_ready (fs : gmap string file) : bool :=
  is_dir (fs !! "data"%string)
  && (is_dir (fs !! "data/ECG5000"%string) || negb (path_exists "data/ECG5000" fs))
  && negb (is_dir (fs !! "data/ECG5000.zip"%string)).

(** Letters, digits, [-], [.] and [_]. *)
Definition name_char (c : ascii) : bool :=
  let n := nat_of_ascii c in
  ((48 <=? n) && (n <=? 57)) || ((65 <=? n) && (n <=? 90))
  || ((97 <=? n) && (n <=? 122)) || (n =? 45) || (n =? 46) || (n =? 95).

(** A member name that [extractall] takes as it is for a file directly
    under the target directory. *)
Definition plain_name (name : string) : bool :=
  let s := list_ascii_of_string name in
  forallb name_char s && (1 <=? length s) && (length s <=? 255)
  && negb (String.eqb name ".") && negb (String.eqb name "..").

(** Every member has a plain name, and none is to be written over a
    directory. *)
Definition extractable (members : list (string * string))
    (fs : gmap string file) : bool :=
  forallb (fun m => plain_name (fst m)
                    && negb (is_dir (fs !! ("data/ECG5000/" ++ fst m)%string)))
          members.

(** ** Tables as text

    The files of the dataset hold one row per line, the numbers set apart
    by two or more spaces.  A row is given here with its layout: every
    field with the number of spaces put before it, beyond the two that
    set it apart from the field before. *)

Definition is_digit (c : ascii) : bool :=
  let n := nat_of_ascii c in (48 <=? n) && (n <=? 57).

Fixpoint skip_digits (s : list ascii) : list ascii :=
  match s with
  | [] => []
  | c :: s' => if is_digit c then skip_digits s' else s
  end.

Definition starts_with_digit (s : list ascii) : bool :=
  match s with
  | [] => false
  | c :: _ => is_digit c
  end.

(** What may follow the mantissa: nothing, or [e], an optional sign and
    digits. *)
Definition exponent_ok (s : list ascii) : bool :=
  match s with
  | [] => true
  | c :: r =>
      Ascii.eqb c "e" &&
      let r' := match r with
                | [] => r
                | d :: t => if Ascii.eqb d "+" || Ascii.eqb d "-" then t else r
                end in
      starts_with_digit r' &&
      match skip_digits r' with [] => true | _ :: _ => false end
  end.

(** What may follow the integer part: a point and digits, then the
    exponent. *)
Definition fraction_ok (s : list ascii) : bool :=
  match s with
  | [] => true
  | c :: r =>
      if Ascii.eqb c "." then starts_with_digit r && exponent_ok (skip_digits r)
      else exponent_ok s
  end.

(** A decimal numeral as the files of the dataset write them, such as
    [1], [-2.5] or [1.0000000e+00]. *)
Definition numeral (f : list ascii) : bool :=
  let u := match f with
           | [] => f
           | c :: r => if Ascii.eqb c "-" then r else f
           end in
  starts_with_digit u && fraction_ok (skip_digits u).

Definition spaces (n : nat) : list ascii := repeat " "%char n.

Fixpoint render_fields (sep : nat) (fields : list (nat * list ascii)) : list ascii :=
  match fields with
  | [] => []
  | (n, f) :: rest => spaces (sep + n) ++ f ++ render_fields 2 rest
  end.

Definition render_line (r : list (nat * list ascii)) : list ascii :=
  render_fields 0 r.

(** The text of a file: the lines, each ended by a line feed. *)
Definition render (rows : list (list (nat * list ascii))) : string :=
  string_of_list_ascii
    (flat_map (fun r => render_line r ++ ["010"%char]) rows).

(** A table of [k] columns of numerals, with at least one row. *)
Definition table (k : nat) (rows : list (list (nat * list ascii))) : Prop :=
  0 < k /\ rows <> [] /\
  List.Forall (fun r => length r = k /\
                        List.Forall (fun nf => numeral (snd nf) = true) r) rows.

(** The numbers of a table. *)
Definition numbers (to_numeric : list ascii -> Q)
    (rows : list (list (nat * list ascii))) : list (list Q) :=
  map (fun r => map (fun nf => to_numeric (snd nf)) r) rows.

(** The first line of a row, from its first field on. *)
Definition body_of (f : list ascii) (rest : list (nat * list ascii)) : list ascii :=
  f ++ render_fields 2 rest.

(** The layout of the small training file, and a layout for the rows of
    the small test file. *)
Definition layout (lead gap : nat) (fields : list string) : list (nat * list ascii) :=
  match map list_ascii_of_string fields with
  | [] => []
  | f :: rest => (lead, f) :: map (fun x => (gap, x)) rest
  end.

Definition toy_train_rows : list (list (nat * list ascii)) :=
  map (layout 3 1)
      [ ["1"; "10"; "11"]; ["2"; "20"; "21"]; ["1"; "11"; "12"];
        ["3"; "30"; "31"]; ["1"; "12"; "13"]; ["2"; "21"; "22"] ]%string.

Definition toy_test_rows : list (list (nat * list ascii)) :=
  map (layout 3 1)
      [ ["1"; "13"; "14"]; ["3"; "31"; "32"]; ["1"; "14"; "15"];
        ["2"; "22"; "23"]; ["1"; "15"; "16"]; ["3"; "32"; "33"] ]%string
  ++ map (layout 3 0)
      [ ["1"; "16"; "17"]; ["1"; "17"; "18"]; ["1"; "18"; "19"];
        ["1"; "19"; "20"] ]%string.

Definition rendered_fs : gmap string file :=
  <["data/ECG5000/ECG5000_TRAIN.txt"%string := Text (render toy_train_rows)]>
    (<["data/ECG5000/ECG5000_TEST.txt"%string := Text (render toy_test_rows)]>
       (<["data/ECG5000"%string := Directory]> (<["data"%string := Directory]> ∅))).

(** * Properties *)

(** ** The error monad *)

Lemma bind_Ok {A B : Type} (m : result A) (k : A -> result B) (b : B) :
  bind m k = Ok b -> exists a, m = Ok a /\ k a = Ok b.
Proof. destruct m as [a|e]; simpl; intros H; [eauto | discriminate]. Qed.

Lemma bind_Raise_l {A B : Type} (m : result A) (k : A -> result B) :
  raises m -> raises (bind m k).
Proof. intros [e ->]. exists e. reflexivity. Qed.

Lemma raises_not_Ok {A : Type} (m : result A) (a : A) : raises m -> m <> Ok a.
Proof. intros [e ->]. discriminate. Qed.

Ltac inv_bind H :=
  let a := fresh "a" in
  let Ha := fresh "Ha" in
  apply bind_Ok in H; destruct H as (a & Ha & H).

Lemma mapM_app {A B : Type} (f : A -> result B) (l1 l2 : list A) l1' l2' :
  mapM f l1 = Ok l1' -> mapM f l2 = Ok l2' -> mapM f (l1 ++ l2) = Ok (l1' ++ l2').
Proof.
  revert l1'. induction l1 as [|a l1 IH]; simpl; intros l1' H1 H2.
  - injection H1 as <-. exact H2.
  - destruct (f a) as [b|]; simpl in *; [|discriminate].
    destruct (mapM f l1) as [bs|]; simpl in *; [|discriminate].
    injection H1 as <-. rewrite (IH bs eq_refl H2). reflexivity.
Qed.

Lemma mapM_length {A B : Type} (f : A -> result B) (l : list A) l' :
  mapM f l = Ok l' -> length l' = length l.
Proof.
  revert l'. induction l as [|a l IH]; simpl; intros l' H.
  - injection H as <-. reflexivity.
  - destruct (f a); simpl in H; [|discriminate].
    destruct (mapM f l); simpl in H; [|discriminate].
    injection H as <-. simpl. f_equal. apply IH. reflexivity.
Qed.

(** A rearranged argument list gives the rearranged results. *)
Lemma mapM_Permutation {A B : Type} (f : A -> result B) (l1 l2 : list A) :
  Permutation l1 l2 ->
  forall l1', mapM f l1 = Ok l1' ->
  exists l2', mapM f l2 = Ok l2' /\ Permutation l1' l2'.
Proof.
  induction 1 as [|x l1 l2 HP IH|x y l|l1 l2 l3 HP1 IH1 HP2 IH2]; simpl; intros out H.
  - injection H as <-. eauto.
  - destruct (f x) as [b|]; simpl in *; [|discriminate].
    destruct (mapM f l1) as [bs|]; simpl in *; [|discriminate].
    injection H as <-. destruct (IH bs eq_refl) as (bs' & -> & HP').
    simpl. eauto using perm_skip.
  - destruct (f y) as [b|]; simpl in *; [|discriminate].
    destruct (f x) as [c|]; simpl in *; [|discriminate].
    destruct (mapM f l) as [bs|]; simpl in *; [|discriminate].
    injection H as <-. eauto using perm_swap.
  - destruct (IH1 out H) as (mid & Hmid & HPm).
    destruct (IH2 mid Hmid) as (out' & Hout & HPo).
    exists out'. split; [exact Hout | etransitivity; eassumption].
Qed.

Lemma mapM_In {A B : Type} (f : A -> result B) (l : list A) l' b :
  mapM f l = Ok l' -> In b l' -> exists a, In a l /\ f a = Ok b.
Proof.
  revert l'. induction l as [|a l IH]; simpl; intros l' H Hin.
  - injection H as <-. destruct Hin.
  - destruct (f a) as [b0|] eqn:Hfa; simpl in H; [|discriminate].
    destruct (mapM f l) as [bs|]; simpl in H; [|discriminate].
    injection H as <-. destruct Hin as [<-|Hin]; [eauto|].
    destruct (IH bs eq_refl Hin) as (a' & Ha' & Hf). eauto.
Qed.

Lemma mapM_total {A B : Type} (f : A -> result B) (l : list A) :
  Forall (fun a => exists b, f a = Ok b) l -> exists l', mapM f l = Ok l'.
Proof.
  induction 1 as [|a l [b Hb] _ [l' IH]]; simpl; [eauto|].
  rewrite Hb, IH. simpl. eauto.
Qed.

(** ** Positional indexing *)

Lemma iloc_seq {A : Type} (pre X : list A) :
  iloc (pre ++ X) (seq (length pre) (length X)) = Ok X.
Proof.
  revert pre. induction X as [|x X IH]; intros pre; [reflexivity|].
  unfold iloc in *. simpl.
  rewrite nth_error_app2, Nat.sub_diag by lia. simpl.
  specialize (IH (pre ++ [x])).
  rewrite <- app_assoc, length_app in IH. simpl in IH.
  rewrite Nat.add_1_r in IH. rewrite IH. reflexivity.
Qed.

Lemma iloc_all {A : Type} (X : list A) : iloc X (seq 0 (length X)) = Ok X.
Proof. exact (iloc_seq [] X). Qed.

(** Index arrays that together hold every position once select a
    rearrangement of the rows. *)
Lemma iloc_partition {A : Type} (X : list A) (i1 i2 : list nat) X1 X2 :
  Permutation (i1 ++ i2) (seq 0 (length X)) ->
  iloc X i1 = Ok X1 -> iloc X i2 = Ok X2 ->
  Permutation (X1 ++ X2) X.
Proof.
  intros HP H1 H2.
  pose proof (mapM_app _ _ _ _ _ H1 H2) as H12.
  destruct (mapM_Permutation _ _ _ HP _ H12) as (X' & HX' & HPX).
  fold (iloc X (seq 0 (length X))) in HX'. rewrite iloc_all in HX'.
  injection HX' as <-. exact HPX.
Qed.

Lemma iloc_total {A : Type} (X : list A) (idx : list nat) :
  Forall (fun i => i < length X) idx -> exists X', iloc X idx = Ok X'.
Proof.
  intros H. apply mapM_total. eapply List.Forall_impl; [|exact H].
  intros i Hi. simpl in Hi. destruct (nth_error X i) as [r|] eqn:E; [eauto|].
  apply nth_error_None in E. lia.
Qed.

Lemma iloc_length {A : Type} (X : list A) (idx : list nat) X' :
  iloc X idx = Ok X' -> length X' = length idx.
Proof. apply mapM_length. Qed.

(** ** scikit-learn's splitters *)

Lemma validate_shuffle_split_Ok (n : nat) (ts : Q) (n_train n_test : nat) :
  validate_shuffle_split n ts = Ok (n_train, n_test) ->
  (0 < ts)%Q /\ (ts < 1)%Q /\
  n_test = Z.to_nat (Qceiling (ts * inject_Z (Z.of_nat n))) /\
  n_train + n_test = n /\ 0 < n_train /\ 0 < n_test.
Proof.
  unfold validate_shuffle_split.
  destruct (Qle_bool ts 0) eqn:E0; [discriminate|].
  destruct (Qle_bool 1 ts) eqn:E1; [discriminate|]. simpl.
  set (n_test' := Z.to_nat (Qceiling (ts * inject_Z (Z.of_nat n)))).
  destruct (n - n_test' =? 0) eqn:E2; [discriminate|].
  intros H. injection H as <- <-.
  apply Nat.eqb_neq in E2.
  assert (H0 : (0 < ts)%Q).
  { apply Qnot_le_lt. intros HH. apply Qle_bool_iff in HH. congruence. }
  assert (H1 : (ts < 1)%Q).
  { apply Qnot_le_lt. intros HH. apply Qle_bool_iff in HH. congruence. }
  repeat split; auto; try lia.
  subst n_test'.
  assert (Hn : (0 < inject_Z (Z.of_nat n))%Q).
  { change 0%Q with (inject_Z 0). rewrite <- Zlt_Qlt. lia. }
  pose proof (Qmult_lt_0_compat _ _ H0 Hn) as Hpos.
  pose proof (Qle_ceiling (ts * inject_Z (Z.of_nat n))) as Hc.
  pose proof (Qlt_le_trans _ _ _ Hpos Hc) as Hc'.
  change 0%Q with (inject_Z 0) in Hc'. rewrite <- Zlt_Qlt in Hc'. lia.
Qed.

Section SklearnFacts.
Context {RS : RandomState}.

Lemma shuffle_split_indices_perm (g : rng) (n n_train n_test : nat) :
  n_train + n_test = n ->
  let '(tr, te, _) := shuffle_split_indices g n n_train n_test in
  Permutation (tr ++ te) (seq 0 n) /\ length tr = n_train /\ length te = n_test.
Proof.
  intros Hn. unfold shuffle_split_indices.
  pose proof (rng_permutation_perm g n) as HP.
  destruct (rng_permutation g n) as [p g']. simpl in HP.
  pose proof (Permutation_length HP) as HL. rewrite length_seq in HL.
  assert (Hs : length (skipn n_test p) = n_train) by (rewrite length_skipn; lia).
  rewrite firstn_all2 by lia.
  split; [|split].
  - rewrite Permutation_app_comm, firstn_skipn. exact HP.
  - exact Hs.
  - rewrite length_firstn. lia.
Qed.

(** What a successful [train_test_split] returns: the two parts
    rearrange the input, neither is empty, and the test part has
    [ceil(test_size * n_samples)] rows. *)
Lemma train_test_split_Ok {A : Type} (global : rng) (X : list A)
    (random_state : option Z) (test_size : Q) (stratify : option (list Q))
    (tr te : list A) (g' : rng) :
  train_test_split global X random_state test_size stratify = Ok (tr, te, g') ->
  Permutation (tr ++ te) X /\
  (0 < test_size)%Q /\ (test_size < 1)%Q /\
  length te = Z.to_nat (Qceiling (test_size * len_Q X)) /\
  0 < length tr /\ 0 < length te.
Proof.
  unfold train_test_split. intros H.
  inv_bind H. destruct a as [n_train n_test].
  apply validate_shuffle_split_Ok in Ha.
  destruct Ha as (H0 & H1 & Hte & Hsum & Htr & Hte0).
  inv_bind H. destruct a as [[itr ite] g1].
  inv_bind H. inv_bind H. injection H as <- <- <-.
  assert (Hidx : Permutation (itr ++ ite) (seq 0 (length X))
                 /\ length itr = n_train).
  { destruct stratify as [y|].
    - destruct (length y =? length X) eqn:Ey; simpl in Ha; [|discriminate].
      apply Nat.eqb_eq in Ey.
      inv_bind Ha. injection Ha as Ha.
      pose proof (stratified_indices_perm
                    (check_random_state global random_state) y n_train n_test) as HP.
      pose proof (stratified_indices_length
                    (check_random_state global random_state) y n_train n_test) as HL.
      rewrite Ha in HP, HL. simpl in HP, HL. rewrite Ey in HP, HL. auto.
    - injection Ha as Ha.
      pose proof (shuffle_split_indices_perm
                    (check_random_state global random_state)
                    (length X) n_train n_test Hsum) as HP.
      rewrite Ha in HP. tauto. }
  destruct Hidx as [HP HL].
  pose proof (iloc_length _ _ _ Ha0) as L1.
  pose proof (iloc_length _ _ _ Ha1) as L2.
  pose proof (Permutation_length HP) as HPL.
  rewrite length_app, length_seq in HPL.
  split; [eapply iloc_partition; eassumption|].
  unfold len_Q. repeat split; auto; lia.
Qed.

(** A call with an integer [random_state] neither reads nor advances
    the global generator. *)
Lemma train_test_split_seeded {A : Type} (g1 g2 : rng) (X : list A)
    (seed : Z) (test_size : Q) (stratify : option (list Q)) :
  match train_test_split g1 X (Some seed) test_size stratify,
        train_test_split g2 X (Some seed) test_size stratify with
  | Ok (tr1, te1, g1'), Ok (tr2, te2, g2') =>
      tr1 = tr2 /\ te1 = te2 /\ g1' = g1 /\ g2' = g2
  | Raise e1, Raise e2 => e1 = e2
  | _, _ => False
  end.
Proof.
  unfold train_test_split. simpl.
  destruct (validate_shuffle_split (length X) test_size) as [[n_train n_test]|e];
    simpl; [|reflexivity].
  match goal with
  | |- context [bind ?m _] => destruct m as [[[itr ite] g']|e]; simpl; [|reflexivity]
  end.
  destruct (iloc X itr) as [tr|e]; simpl; [|reflexivity].
  destruct (iloc X ite) as [te|e]; simpl; [|reflexivity].
  auto.
Qed.

End SklearnFacts.

(** ** The Partitioner *)


Lemma is_normal_Qeq (r : row) : is_normal r = true <-> (Class r == 1)%Q.
Proof. apply Qeq_bool_iff. Qed.

Section PartitionerFacts.
Context {RS : RandomState}.

Lemma split_rows_Ok (global : rng) (a : args) (df : list row)
    (s : splits) (g : rng) :
  split_rows global a df = Ok (s, g) -> split_spec a df s.
Proof.
  unfold split_rows. intros H.
  inv_bind H. destruct a0 as [[tr rest] g1].
  inv_bind H. destruct a0 as [[vn tn] g2].
  inv_bind H. rename a0 into n. inv_bind H. rename a0 into pv.
  inv_bind H. destruct a0 as [[va ta] g3].
  injection H as <- <-.
  apply train_test_split_Ok in Ha, Ha0, Ha3.
  destruct Ha as (P1 & _ & _ & L1 & N1 & _).
  destruct Ha0 as (P2 & _ & _ & _ & _ & _).
  destruct Ha3 as (P3 & T0 & T1 & L3 & N3 & N4).
  constructor; simpl; auto.
  - rewrite <- P1. apply Permutation_app_head. exact P2.
  - apply Permutation_length in P1. rewrite length_app in P1. lia.
Qed.

End PartitionerFacts.

(** ** Rounding *)



Lemma len_Q_pos {A : Type} (l : list A) : 0 < length l -> (0 < len_Q l)%Q.
Proof.
  intros H. unfold len_Q. change 0%Q with (inject_Z 0).
  rewrite <- Zlt_Qlt. lia.
Qed.

(** The quantity solved for at line 92: [n / (L + n) == p] for
    [n = L * p / (1 - p)]. *)
Lemma solve_for_n_anol (L p : Q) :
  ~ (L == 0)%Q -> ~ (1 - p == 0)%Q ->
  (L * p / (1 - p) / (L + L * p / (1 - p)) == p)%Q.
Proof.
  intros HL Hp. field. split; [exact Hp|].
  intros H. apply HL.
  assert (E : (L * (1 - p) + L * p == L)%Q) by ring.
  rewrite <- E. exact H.
Qed.

(** ** Lists of records *)

Lemma records_map (l : list row) :
  records (map signal l) (map Class l) = map (fun r => (signal r, Class r)) l.
Proof. unfold records. induction l; simpl; congruence. Qed.

Lemma records_app (X1 X2 : list (list Q)) (y1 y2 : list Q) :
  length X1 = length y1 ->
  records (X1 ++ X2) (y1 ++ y2) = records X1 y1 ++ records X2 y2.
Proof.
  unfold records. revert y1. induction X1 as [|x X1 IH]; intros [|c y1] H;
    simpl in *; try discriminate; [reflexivity|].
  f_equal. apply IH. lia.
Qed.

Lemma parallel_arrays_map (df rs : list row) :
  (forall r, In r rs -> In r df) ->
  parallel_arrays df (map signal rs) (map Class rs).
Proof.
  intros Hin. split; [now rewrite !length_map|].
  intros i Hi. rewrite length_map in Hi.
  destruct (nth_error rs i) as [r|] eqn:E.
  - exists r. rewrite !nth_error_map, E. simpl.
    split; [|split]; auto. apply Hin. eapply nth_error_In; eassumption.
  - apply nth_error_None in E. lia.
Qed.

Lemma In_filter_of {A : Type} (f : A -> bool) (l l' : list A) (x : A) :
  Permutation l' (List.filter f l) -> In x l' -> In x l /\ f x = true.
Proof.
  intros HP Hin. apply List.filter_In.
  eapply Permutation_in; eassumption.
Qed.

(** In [l1 ++ l2] with [P] on all of [l1] and on none of [l2], every
    element with [P] comes before every element without. *)
Lemma app_ordered {A : Type} (P : A -> Prop) (l1 l2 : list A) :
  List.Forall P l1 -> List.Forall (fun x => ~ P x) l2 ->
  forall i j a b,
    nth_error (l1 ++ l2) i = Some a -> P a ->
    nth_error (l1 ++ l2) j = Some b -> ~ P b ->
    i < j.
Proof.
  intros H1 H2 i j a b Hi Pa Hj Pb.
  rewrite List.Forall_forall in H1, H2.
  destruct (Nat.lt_ge_cases i (length l1)) as [Li|Li].
  - destruct (Nat.lt_ge_cases j (length l1)) as [Lj|Lj]; [|lia].
    rewrite nth_error_app1 in Hj by exact Lj.
    exfalso. apply Pb, H1. eapply nth_error_In; eassumption.
  - rewrite nth_error_app2 in Hi by exact Li.
    exfalso. eapply H2; [eapply nth_error_In; eassumption | exact Pa].
Qed.

(** * The Partitioner on binary64 *)

Lemma py_div64_Ok (x y q : float) :
  Binary64.py_div x y = Ok q -> (y =? 0)%float = false /\ q = (x / y)%float.
Proof.
  unfold Binary64.py_div. destruct (y =? 0)%float; [discriminate|].
  intros H. injection H as <-. auto.
Qed.

Lemma validate_shuffle_split64_Ok (n : nat) (ts : float) (n_train n_test : nat) :
  Binary64.validate_shuffle_split n ts = Ok (n_train, n_test) ->
  (ts <=? 0)%float = false /\ (1 <=? ts)%float = false /\
  math_ceil (ts * float_of_nat n) = Some (Z.of_nat n_test) /\
  n_train + n_test = n /\ 0 < n_train /\ 0 < n_test.
Proof.
  unfold Binary64.validate_shuffle_split.
  destruct (ts <=? 0)%float; [discriminate|].
  destruct (1 <=? ts)%float; [discriminate|]. simpl.
  destruct (math_ceil (ts * float_of_nat n)) as [c|]; [|discriminate].
  destruct (Z.of_nat n - c =? 0)%Z eqn:E1; [discriminate|].
  destruct (c <=? 0)%Z eqn:E2; [discriminate|].
  destruct (Z.of_nat n <=? c)%Z eqn:E3; [discriminate|]. simpl.
  intros H. injection H as <- <-.
  apply Z.leb_gt in E2, E3.
  rewrite Z2Nat.id by lia.
  repeat split; auto; lia.
Qed.

Section Binary64Facts.
Context {RS : RandomState}.

(** What a successful [train_test_split] returns, with the size of the
    test part as Python rounds it. *)
Lemma train_test_split64_Ok {A : Type} (global : rng) (X : list A)
    (random_state : option Z) (test_size : float) (stratify : option (list Q))
    (tr te : list A) (g' : rng) :
  Binary64.train_test_split global X random_state test_size stratify
  = Ok (tr, te, g') ->
  Permutation (tr ++ te) X /\
  (test_size <=? 0)%float = false /\ (1 <=? test_size)%float = false /\
  math_ceil (test_size * float_of_nat (length X)) = Some (Z.of_nat (length te)) /\
  0 < length tr /\ 0 < length te.
Proof.
  unfold Binary64.train_test_split. intros H.
  apply bind_Ok in H as ([n_train n_test] & Hv & H).
  apply validate_shuffle_split64_Ok in Hv.
  destruct Hv as (H0 & H1 & Hte & Hsum & Htr & Hte0).
  apply bind_Ok in H as ([[itr ite] g1] & Hi & H).
  apply bind_Ok in H as (X1 & Hx1 & H).
  apply bind_Ok in H as (X2 & Hx2 & H).
  injection H as <- <- <-.
  assert (Hidx : Permutation (itr ++ ite) (seq 0 (length X))
                 /\ length itr = n_train).
  { destruct stratify as [y|].
    - destruct (length y =? length X) eqn:Ey; simpl in Hi; [|discriminate].
      apply Nat.eqb_eq in Ey.
      apply bind_Ok in Hi as (u & _ & Hi). injection Hi as Hi.
      pose proof (stratified_indices_perm
                    (check_random_state global random_state) y n_train n_test) as HP.
      pose proof (stratified_indices_length
                    (check_random_state global random_state) y n_train n_test) as HL.
      rewrite Hi in HP, HL. simpl in HP, HL. rewrite Ey in HP, HL. auto.
    - injection Hi as Hi.
      pose proof (shuffle_split_indices_perm
                    (check_random_state global random_state)
                    (length X) n_train n_test Hsum) as HP.
      rewrite Hi in HP. tauto. }
  destruct Hidx as [HP HL].
  pose proof (iloc_length _ _ _ Hx1) as L1.
  pose proof (iloc_length _ _ _ Hx2) as L2.
  pose proof (Permutation_length HP) as HPL.
  rewrite length_app, length_seq in HPL.
  split; [eapply iloc_partition; eassumption|].
  replace (length X2) with n_test by lia.
  repeat split; auto; lia.
Qed.

(** The calls of a completed run of lines 83-98 and what they return. *)
Lemma split_rows64_Ok (global : rng) (a : Binary64.args) (df : list row)
    (s : Binary64.splits) (g : rng) :
  Binary64.split_rows global a df = Ok (s, g) ->
  Binary64.normal s = List.filter is_normal df /\
  Binary64.anomaly s = List.filter (fun r => negb (is_normal r)) df /\
  (exists rest g1 g2,
     Binary64.train_test_split global (Binary64.normal s) (Some 88%Z)
       (1 - Binary64.perc_tr_n a)%float None
     = Ok (Binary64.X_train_n s, rest, g1) /\
     Binary64.train_test_split g1 rest (Some 88%Z)
       (1 - Binary64.perc_val_n a)%float None
     = Ok (Binary64.X_val_n s, Binary64.X_test_n s, g2) /\
     Binary64.train_test_split g2 (Binary64.anomaly s) (Some 88%Z)
       (Binary64.perc_anol_test_a s) (Some (map Class (Binary64.anomaly s)))
     = Ok (Binary64.X_val_a s, Binary64.X_test_a s, g)) /\
  Binary64.py_div
    (float_of_nat (length (Binary64.X_train_n s)) * Binary64.perc_val_an a)%float
    (1 - Binary64.perc_val_an a)%float
  = Ok (Binary64.n_anol s) /\
  Binary64.py_div (Binary64.n_anol s) (float_of_nat (length (Binary64.anomaly s)))
  = Ok (Binary64.perc_anol_val_a s) /\
  Binary64.perc_anol_test_a s = (1 - Binary64.perc_anol_val_a s)%float.
Proof.
  unfold Binary64.split_rows. intros H.
  apply bind_Ok in H as ([[tr rest] g1] & H1 & H).
  apply bind_Ok in H as ([[vn tn] g2] & H2 & H).
  apply bind_Ok in H as (n & Hn & H).
  apply bind_Ok in H as (pv & Hpv & H).
  apply bind_Ok in H as ([[va ta] g3] & H3 & H).
  injection H as <- <-. simpl.
  split; [reflexivity|]. split; [reflexivity|].
  split; [exists rest, g1, g2; auto|]. auto.
Qed.

End Binary64Facts.

(** ** The double that stands for 1 *)

Lemma digits2_pos_pow2 (k : positive) :
  digits2_pos (2 ^ k)%positive = Pos.succ k.
Proof.
  induction k as [|k IH] using Pos.peano_ind; [reflexivity|].
  rewrite Pos.pow_succ_r.
  change (2 * 2 ^ k)%positive with ((2 ^ k)~0)%positive.
  cbn [digits2_pos]. rewrite IH. reflexivity.
Qed.

(** Only [1.0] stands for the number one. *)
Lemma exact_one (x : float) : (exact x == 1)%Q -> x = 1%float.
Proof.
  unfold exact. intros H.
  pose proof (Prim2SF_valid x) as V.
  apply Prim2SF_inj.
  destruct (Prim2SF x) as [s| s | |s m e];
    try (exfalso; vm_compute in H; discriminate).
  assert (P2 : forall k, (2 ^ Zpos k == inject_Z (2 ^ Zpos k))%Q).
  { intros k. symmetry. apply (Zpower_Qpower 2). lia. }
  assert (Hpos : forall k, (0 < 2 ^ Zpos k)%Z) by (intros; apply Z.pow_pos_nonneg; lia).
  destruct s.
  { exfalso. destruct e as [|k|k].
    - simpl in H. unfold Qeq in H. simpl in H. lia.
    - rewrite P2, <- inject_Z_mult in H. unfold Qeq in H. simpl in H.
      specialize (Hpos k). nia.
    - change (2 ^ Z.neg k)%Q with (/ (2 ^ Zpos k))%Q in H. rewrite P2 in H.
      specialize (Hpos k).
      assert (E : (inject_Z (Z.neg m) == inject_Z (2 ^ Zpos k))%Q).
      { assert (N : ~ (inject_Z (2 ^ Z.pos k) == 0)%Q).
        { unfold Qeq. simpl. lia. }
        rewrite <- (Qmult_1_l (inject_Z (2 ^ Z.pos k))), <- H. field. exact N. }
      unfold Qeq in E. simpl in E. lia. }
  destruct e as [|k|k].
  - exfalso. assert (m = 1%positive).
    { unfold Qeq in H. simpl in H. lia. }
    subst m. vm_compute in V. discriminate.
  - exfalso. rewrite P2, <- inject_Z_mult in H. unfold Qeq in H. simpl in H.
    assert (2 <= 2 ^ Zpos k)%Z.
    { change 2%Z with (2 ^ 1)%Z at 1. apply Z.pow_le_mono_r; lia. }
    nia.
  - change (2 ^ Z.neg k)%Q with (/ (2 ^ Zpos k))%Q in H. rewrite P2 in H.
    specialize (Hpos k).
    assert (E : (inject_Z (Z.pos m) == inject_Z (2 ^ Zpos k))%Q).
    { assert (N : ~ (inject_Z (2 ^ Z.pos k) == 0)%Q).
      { unfold Qeq. simpl. lia. }
      rewrite <- (Qmult_1_l (inject_Z (2 ^ Z.pos k))), <- H. field. exact N. }
    assert (Em : m = (2 ^ k)%positive).
    { unfold Qeq in E. simpl in E. rewrite !Z.mul_1_r in E.
      rewrite <- Pos2Z.inj_pow in E. congruence. }
    subst m. simpl in V. unfold bounded, canonical_mantissa in V.
    rewrite digits2_pos_pow2 in V.
    apply andb_prop in V as [V _]. apply Z.eqb_eq in V.
    assert (Ek : k = 52%positive).
    { unfold fexp, emin, prec, emax in V. lia. }
    subst k. reflexivity.
Qed.

(** * Properties of the Partitioner *)

Section Claims.
Context {RS : RandomState}.

(** C1, as amended.  When lines 83-98 complete, the number of anomalous
    records meant for validation is the double
    [|train_n| * perc_val_an / (1 - perc_val_an)], computed from the size
    of the training set; the fraction of the anomaly group is that number
    over [|anomaly|]; and it is the complement of this fraction that the
    stratified split of the anomalous rows receives as [test_size], so
    that [ceil(test_size * |anomaly|)] rows go to test and the others to
    validation.  On the numbers the doubles stand for, the quantity [n]
    of line 92 is the one for which [n / (|train_n| + n)] equals
    [perc_val_an]. *)
Theorem n_anol_relative_to_training_set (global : rng) (a : Binary64.args)
    (df : list row) (s : Binary64.splits) (g : rng) :
  Binary64.split_rows global a df = Ok (s, g) ->
  Binary64.anomaly s = List.filter (fun r => negb (is_normal r)) df /\
  Binary64.n_anol s
  = (float_of_nat (length (Binary64.X_train_n s)) * Binary64.perc_val_an a
     / (1 - Binary64.perc_val_an a))%float /\
  Binary64.perc_anol_val_a s
  = (Binary64.n_anol s / float_of_nat (length (Binary64.anomaly s)))%float /\
  Binary64.perc_anol_test_a s = (1 - Binary64.perc_anol_val_a s)%float /\
  (exists g2,
     Binary64.train_test_split g2 (Binary64.anomaly s) (Some 88%Z)
       (Binary64.perc_anol_test_a s) (Some (map Class (Binary64.anomaly s)))
     = Ok (Binary64.X_val_a s, Binary64.X_test_a s, g)) /\
  math_ceil (Binary64.perc_anol_test_a s
             * float_of_nat (length (Binary64.anomaly s)))
  = Some (Z.of_nat (length (Binary64.X_test_a s))) /\
  length (Binary64.X_val_a s)
  = length (Binary64.anomaly s) - length (Binary64.X_test_a s) /\
  0 < length (Binary64.X_train_n s) /\
  (let L := len_Q (Binary64.X_train_n s) in
   let p := exact (Binary64.perc_val_an a) in
   ~ (1 - p == 0)%Q /\
   (L * p / (1 - p) / (L + L * p / (1 - p)) == p)%Q).
Proof.
  intros H.
  apply split_rows64_Ok in H
    as (_ & HA & (rest & g1 & g2 & H1 & _ & H3) & Hn & Hv & Ht).
  apply py_div64_Ok in Hn as [Hp Hn].
  apply py_div64_Ok in Hv as [_ Hv].
  pose proof (train_test_split64_Ok _ _ _ _ _ _ _ _ H1) as (_ & _ & _ & _ & N1 & _).
  pose proof (train_test_split64_Ok _ _ _ _ _ _ _ _ H3) as (P3 & _ & _ & C3 & _ & _).
  apply Permutation_length in P3. rewrite length_app in P3.
  split; [exact HA|]. split; [exact Hn|]. split; [exact Hv|]. split; [exact Ht|].
  split; [exists g2; exact H3|]. split; [exact C3|]. split; [lia|].
  split; [exact N1|].
  assert (Hq : ~ (1 - exact (Binary64.perc_val_an a) == 0)%Q).
  { intros E.
    assert (E1 : (exact (Binary64.perc_val_an a) == 1)%Q) by lra.
    apply exact_one in E1. rewrite E1 in Hp. vm_compute in Hp. discriminate. }
  split; [exact Hq|].
  apply solve_for_n_anol; [|exact Hq].
  apply len_Q_pos in N1. intros E. rewrite E in N1.
  exact (Qlt_irrefl _ N1).
Qed.

(** C2.  When lines 83-98 complete, the three normal-side parts
    rearrange the normal rows and the two anomaly-side parts rearrange
    the anomalous rows: every record is in exactly one part, and the
    sizes add up. *)
Theorem splits_partition_their_inputs (global : rng) (a : args)
    (df : list row) (s : splits) (g : rng) :
  split_rows global a df = Ok (s, g) ->
  Permutation (X_train_n s ++ X_val_n s ++ X_test_n s)
              (List.filter is_normal df) /\
  length (X_train_n s) + length (X_val_n s) + length (X_test_n s)
  = length (List.filter is_normal df) /\
  Permutation (X_val_a s ++ X_test_a s)
              (List.filter (fun r => negb (is_normal r)) df) /\
  length (X_val_a s) + length (X_test_a s)
  = length (List.filter (fun r => negb (is_normal r)) df).
Proof.
  intros H. apply split_rows_Ok in H. destruct H.
  rewrite <- spec_normal0, <- spec_anomaly0.
  repeat split; auto.
  - apply Permutation_length in spec_normal_perm0.
    rewrite !length_app in spec_normal_perm0. lia.
  - apply Permutation_length in spec_anomaly_perm0.
    rewrite length_app in spec_anomaly_perm0. lia.
Qed.


Lemma partition_Ok (global : rng) (a : args) (df : list row)
    (o : arrays) (g : rng) :
  partition global a df = Ok (o, g) ->
  exists s, split_rows global a df = Ok (s, g) /\ o = assemble s.
Proof.
  unfold partition. intros H. inv_bind H. destruct a0 as [s g'].
  injection H as <- <-. eauto.
Qed.

Lemma split_rows_labels (global : rng) (a : args) (df : list row)
    (s : splits) (g : rng) :
  split_rows global a df = Ok (s, g) ->
  (forall r, In r (X_train_n s ++ X_val_n s ++ X_test_n s) ->
             In r df /\ is_normal r = true) /\
  (forall r, In r (X_val_a s ++ X_test_a s) ->
             In r df /\ is_normal r = false).
Proof.
  intros H. apply split_rows_Ok in H. destruct H.
  rewrite spec_normal0 in spec_normal_perm0.
  rewrite spec_anomaly0 in spec_anomaly_perm0.
  split; intros r Hr.
  - eapply In_filter_of; eassumption.
  - destruct (In_filter_of _ _ _ _ spec_anomaly_perm0 Hr) as [Hin Hf].
    split; [exact Hin|]. now apply negb_true_iff in Hf.
Qed.

(** C3.  Every label saved in [y_train] equals 1, and the rows of the
    training arrays are normal records of the table: none of them is
    anomalous. *)
Theorem train_is_normal_only (global : rng) (a : args) (df : list row)
    (o : arrays) (g : rng) :
  partition global a df = Ok (o, g) ->
  List.Forall (fun c => (c == 1)%Q) (y_train o) /\
  List.filter (fun c => negb (Qeq_bool c 1)) (y_train o) = [] /\
  exists rs, X_train o = map signal rs /\ y_train o = map Class rs /\
             List.Forall (fun r => In r df /\ is_normal r = true) rs.
Proof.
  intros H. apply partition_Ok in H as (s & Hs & ->).
  apply split_rows_labels in Hs as [Hn _]. simpl.
  assert (HF : List.Forall (fun r => In r df /\ is_normal r = true) (X_train_n s)).
  { apply List.Forall_forall. intros r Hr. apply Hn.
    apply in_or_app. now left. }
  split; [|split].
  - apply List.Forall_forall. intros c Hc.
    apply in_map_iff in Hc as (r & <- & Hr).
    rewrite List.Forall_forall in HF. apply is_normal_Qeq, HF, Hr.
  - clear Hn. induction HF as [|r l [_ Hr] _ IH]; [reflexivity|]. simpl.
    unfold is_normal in Hr. rewrite Hr. simpl. exact IH.
  - exists (X_train_n s). auto.
Qed.

(** C4.  When the run completes, every record of [val_p] is a record of
    [val], with the same features and label, and [val] has a record
    that [val_p] lacks: [val] is [val_p] followed by the anomalous
    validation records, of which there is at least one. *)
Theorem val_p_strict_subset_of_val (global : rng) (a : args) (df : list row)
    (o : arrays) (g : rng) :
  partition global a df = Ok (o, g) ->
  (forall r, In r (records (X_val_p o) (y_val_p o)) ->
             In r (records (X_val o) (y_val o))) /\
  (exists r, In r (records (X_val o) (y_val o)) /\
             ~ In r (records (X_val_p o) (y_val_p o))) /\
  (exists extra, extra <> [] /\
     records (X_val o) (y_val o) = records (X_val_p o) (y_val_p o) ++ extra).
Proof.
  intros H. apply partition_Ok in H as (s & Hs & ->).
  pose proof (split_rows_labels _ _ _ _ _ Hs) as [Hn Ha].
  apply split_rows_Ok in Hs. destruct Hs. simpl.
  rewrite records_app by (now rewrite !length_map).
  rewrite !records_map.
  split; [|split].
  - intros r Hr. apply in_or_app. now left.
  - destruct (X_val_a s) as [|r va] eqn:E; [simpl in *; lia|].
    exists (signal r, Class r). split.
    + apply in_or_app. right. simpl. now left.
    + intros Hin. apply in_map_iff in Hin as (r' & Heq & Hr').
      injection Heq as _ Hc.
      assert (N' : is_normal r' = true).
      { apply Hn. apply in_or_app. right. apply in_or_app. now left. }
      assert (A' : is_normal r = false).
      { apply Ha. simpl. now left. }
      unfold is_normal in *. rewrite Hc in N'. congruence.
  - eexists. split; [|reflexivity].
    destruct (X_val_a s); [simpl in *; lia | discriminate].
Qed.

(** C9.  For each of the four partitions, the saved [X] and [y] are
    equally long and, position by position, hold the signal and the
    class of one record of the input table. *)
Theorem saved_arrays_are_parallel (global : rng) (a : args) (df : list row)
    (o : arrays) (g : rng) :
  partition global a df = Ok (o, g) ->
  parallel_arrays df (X_train o) (y_train o) /\
  parallel_arrays df (X_val o) (y_val o) /\
  parallel_arrays df (X_val_p o) (y_val_p o) /\
  parallel_arrays df (X_test o) (y_test o).
Proof.
  intros H. apply partition_Ok in H as (s & Hs & ->).
  apply split_rows_labels in Hs as [Hn Ha]. simpl.
  rewrite <- !map_app.
  split; [|split; [|split]]; apply parallel_arrays_map; intros r Hr.
  - apply Hn. apply in_or_app. now left.
  - apply in_app_or in Hr as [Hr|Hr].
    + apply Hn. apply in_or_app. right. apply in_or_app. now left.
    + apply Ha. apply in_or_app. now left.
  - apply Hn. apply in_or_app. right. apply in_or_app. now left.
  - apply in_app_or in Hr as [Hr|Hr].
    + apply Hn. apply in_or_app. right. apply in_or_app. now right.
    + apply Ha. apply in_or_app. now right.
Qed.

(** C10.  [val] is [val_n] followed by [val_a] and [test] is [test_n]
    followed by [test_a]; the first parts hold normal labels only and
    the second parts none, so in [y_val] and in [y_test] every normal
    label stands before every anomalous one. *)
Theorem normal_rows_precede_anomalous (global : rng) (a : args)
    (df : list row) (s : splits) (g : rng) :
  split_rows global a df = Ok (s, g) ->
  let o := assemble s in
  X_val o = map signal (X_val_n s) ++ map signal (X_val_a s) /\
  y_val o = map Class (X_val_n s) ++ map Class (X_val_a s) /\
  X_test o = map signal (X_test_n s) ++ map signal (X_test_a s) /\
  y_test o = map Class (X_test_n s) ++ map Class (X_test_a s) /\
  (forall i j ci cj,
      nth_error (y_val o) i = Some ci -> (ci == 1)%Q ->
      nth_error (y_val o) j = Some cj -> ~ (cj == 1)%Q -> i < j) /\
  (forall i j ci cj,
      nth_error (y_test o) i = Some ci -> (ci == 1)%Q ->
      nth_error (y_test o) j = Some cj -> ~ (cj == 1)%Q -> i < j).
Proof.
  intros H. apply split_rows_labels in H as [Hn Ha]. simpl.
  assert (N : forall l, (forall r, In r l -> is_normal r = true) ->
              List.Forall (fun c => (c == 1)%Q) (map Class l)).
  { intros l Hl. apply List.Forall_forall. intros c Hc.
    apply in_map_iff in Hc as (r & <- & Hr). apply is_normal_Qeq. auto. }
  assert (A : forall l, (forall r, In r l -> is_normal r = false) ->
              List.Forall (fun c => ~ (c == 1)%Q) (map Class l)).
  { intros l Hl. apply List.Forall_forall. intros c Hc.
    apply in_map_iff in Hc as (r & <- & Hr). intros E.
    apply is_normal_Qeq in E. rewrite (Hl r Hr) in E. discriminate. }
  repeat split; try reflexivity.
  - apply app_ordered; [apply N | apply A]; intros r Hr.
    + apply Hn. apply in_or_app. right. apply in_or_app. now left.
    + apply Ha. apply in_or_app. now left.
  - apply app_ordered; [apply N | apply A]; intros r Hr.
    + apply Hn. apply in_or_app. right. apply in_or_app. now right.
    + apply Ha. apply in_or_app. now right.
Qed.
End Claims.

(** ** Degenerate percentages *)

Lemma not_Ok_raises {A : Type} (m : result A) :
  (forall a, m <> Ok a) -> raises m.
Proof. destruct m as [a|e]; intros H; [destruct (H a eq_refl) | exists e; reflexivity]. Qed.

Section Boundary.
Context {RS : RandomState}.



End Boundary.

(** ** Reproducibility *)

Section Reproducibility.
Context {RS : RandomState}.
Variable to_numeric : list ascii -> Q.
Variable network : string -> option file.

Lemma split_rows_seeded (g1 g2 : rng) (a : args) (df : list row) :
  same_outcome (split_rows g1 a df) (split_rows g2 a df).
Proof.
  unfold split_rows.
  pose proof (train_test_split_seeded g1 g2 (List.filter is_normal df)
                88%Z (1 - perc_tr_n a)%Q None) as H1.
  destruct (train_test_split g1 (List.filter is_normal df) _ _ _)
    as [[[tr1 re1] g1']|e1];
    destruct (train_test_split g2 (List.filter is_normal df) _ _ _)
    as [[[tr2 re2] g2']|e2]; simpl; try contradiction; [|exact H1].
  destruct H1 as (<- & <- & -> & ->).
  pose proof (train_test_split_seeded g1 g2 re1 88%Z (1 - perc_val_n a)%Q None) as H2.
  destruct (train_test_split g1 re1 _ _ _) as [[[vn1 tn1] g1']|e1];
    destruct (train_test_split g2 re1 _ _ _) as [[[vn2 tn2] g2']|e2];
    simpl; try contradiction; [|exact H2].
  destruct H2 as (<- & <- & -> & ->).
  destruct (py_div _ _) as [n|e]; simpl; [|reflexivity].
  destruct (py_div _ _) as [pv|e]; simpl; [|reflexivity].
  match goal with
  | |- context [train_test_split g1 ?X ?s ?t ?y] =>
      pose proof (train_test_split_seeded g1 g2 X 88%Z t y) as H3;
      destruct (train_test_split g1 X s t y) as [[[va1 ta1] g1']|e1];
      destruct (train_test_split g2 X s t y) as [[[va2 ta2] g2']|e2];
      simpl; try contradiction; [|exact H3]
  end.
  destruct H3 as (<- & <- & -> & ->). reflexivity.
Qed.

Lemma partition_seeded (g1 g2 : rng) (a : args) (df : list row) :
  same_outcome (partition g1 a df) (partition g2 a df).
Proof.
  unfold partition. pose proof (split_rows_seeded g1 g2 a df) as H.
  destruct (split_rows g1 a df) as [[s1 g1']|e1];
    destruct (split_rows g2 a df) as [[s2 g2']|e2]; simpl in *;
    try contradiction; congruence.
Qed.

Lemma serializer_saved (o : arrays) (fs : gmap string file) :
  saved o (serializer o fs).
Proof.
  unfold saved, serializer, np_save1, np_save2. simpl norm.
  repeat split;
    repeat (rewrite lookup_insert_ne by discriminate);
    apply lookup_insert_eq.
Qed.

(** A run that completes has loaded a table, partitioned its rows and
    saved the arrays. *)
Lemma data_preparation_Ok (g : rng) (a : args) (fs fs' : gmap string file) (g' : rng) :
  data_preparation to_numeric network g a fs = Ok (fs', g') ->
  exists fs1 df rows o,
    fetch_and_extract network a fs = Ok fs1 /\
    mapM to_row (values df) = Ok rows /\
    partition g a rows = Ok (o, g') /\
    saved o fs'.
Proof.
  unfold data_preparation. intros H.
  inv_bind H. rename a0 into fs1. inv_bind H. rename a0 into df.
  inv_bind H. rename a0 into rows. inv_bind H. destruct a0 as [o g0].
  injection H as <- <-.
  exists fs1, df, rows, o.
  split; [exact Ha|]. split; [exact Ha1|]. split; [exact Ha2|].
  apply serializer_saved.
Qed.

(** C5.  Whatever the state of the global generator, a run on the same
    arguments and the same files ends the same way: the same exception,
    or the same filesystem.  Two runs that complete leave the same
    arrays in the eight saved files.  Every split is drawn from a
    generator freshly seeded with the constant 88. *)
Theorem runs_are_reproducible (g1 g2 : rng) (a : args) (fs : gmap string file) :
  same_outcome (data_preparation to_numeric network g1 a fs)
               (data_preparation to_numeric network g2 a fs) /\
  (forall fs1 g1' fs2 g2',
      data_preparation to_numeric network g1 a fs = Ok (fs1, g1') ->
      data_preparation to_numeric network g2 a fs = Ok (fs2, g2') ->
      fs1 = fs2 /\ exists o, saved o fs1 /\ saved o fs2).
Proof.
  assert (S : same_outcome (data_preparation to_numeric network g1 a fs)
                           (data_preparation to_numeric network g2 a fs)).
  { unfold data_preparation.
    destruct (fetch_and_extract network a fs) as [fs1|e]; simpl; [|reflexivity].
    destruct (loader to_numeric _) as [df|e]; simpl; [|reflexivity].
    destruct (mapM to_row (values df)) as [rows|e]; simpl; [|reflexivity].
    pose proof (partition_seeded g1 g2 a rows) as H.
    destruct (partition g1 a rows) as [[o1 g1']|e1];
      destruct (partition g2 a rows) as [[o2 g2']|e2]; simpl in *;
      try contradiction; congruence. }
  split; [exact S|].
  intros fs1 g1' fs2 g2' H1 H2. rewrite H1, H2 in S. simpl in S. subst fs2.
  split; [reflexivity|].
  destruct (data_preparation_Ok _ _ _ _ _ H1) as (_ & _ & _ & o & _ & _ & _ & Ho).
  eauto.
Qed.

End Reproducibility.

(** ** The Extractor *)

Lemma os_remove_absent (p : string) (fs : gmap string file) :
  fs !! norm p = None -> os_remove p fs = Raise FileNotFoundError.
Proof. unfold os_remove. now intros ->. Qed.

Lemma os_remove_Ok (p : string) (fs fs' : gmap string file) :
  os_remove p fs = Ok fs' ->
  fs' = delete (norm p) fs /\ exists f, fs !! norm p = Some f /\ f <> Directory.
Proof.
  unfold os_remove. destruct (fs !! norm p) as [f|]; [|discriminate].
  destruct f; try discriminate; intros H; injection H as <-;
    (split; [reflexivity | eexists; split; [reflexivity | discriminate]]).
Qed.

(** Removing in sequence fails as soon as one file of the list is
    absent: nothing checks for it first and nothing catches the error. *)
Lemma remove_all_absent (ps : list string) (fs : gmap string file) (p : string) :
  In p ps -> fs !! norm p = None -> raises (remove_all ps fs).
Proof.
  revert fs. induction ps as [|q ps IH]; intros fs Hin Habs; [destruct Hin|].
  simpl. destruct (os_remove q fs) as [fs'|e] eqn:E; [|exists e; reflexivity].
  simpl. destruct Hin as [->|Hin].
  - rewrite (os_remove_absent _ _ Habs) in E. discriminate.
  - apply IH; [exact Hin|].
    apply os_remove_Ok in E as [-> _].
    destruct (decide (norm q = norm p)) as [->|Hne].
    + apply lookup_delete_eq.
    + rewrite lookup_delete_ne by exact Hne. exact Habs.
Qed.

(** Removing files that are all there, under distinct names, deletes
    exactly them. *)
Lemma remove_all_present (ps : list string) (fs : gmap string file) :
  NoDup (map norm ps) ->
  List.Forall (fun p => exists f, fs !! norm p = Some f /\ f <> Directory) ps ->
  remove_all ps fs = Ok (fold_left (fun m p => delete (norm p) m) ps fs).
Proof.
  revert fs. induction ps as [|q ps IH]; intros fs Hnd Hall; [reflexivity|].
  simpl in *. apply NoDup_cons in Hnd as [Hq Hnd].
  apply List.Forall_cons_iff in Hall as [(f & Hf & HD) Hall].
  assert (E : os_remove q fs = Ok (delete (norm q) fs)).
  { unfold os_remove. rewrite Hf. destruct f; congruence. }
  rewrite E. simpl. apply IH; [exact Hnd|].
  rewrite List.Forall_forall in Hall |- *. intros p Hp.
  destruct (Hall p Hp) as (f' & Hf' & HD'). exists f'. split; [|exact HD'].
  rewrite lookup_delete_ne; [exact Hf'|].
  intros Heq. apply Hq. rewrite Heq. apply list_elem_of_In, in_map, Hp.
Qed.

Lemma extractall_lookup (members : list (string * string)) (save_path : string)
    (fs : gmap string file) (name data : string) :
  In (name, data) members ->
  exists data', extractall members save_path fs
                !! norm (save_path ++ "/" ++ name)%string = Some (Text data').
Proof.
  unfold extractall. revert fs.
  induction members as [|m members IH]; intros fs Hin; [destruct Hin|].
  simpl. destruct (in_dec (fun x y => decide (x = y)) (name, data) members) as [Hin'|Hout].
  - apply IH. exact Hin'.
  - destruct Hin as [->|Hin]; [|contradiction]. simpl.
    clear IH Hout.
    assert (G : forall (ms : list (string * string)) (fs0 : gmap string file) k d,
               fs0 !! k = Some (Text d) ->
               exists d', fold_left
                 (fun fs m => <[norm (save_path ++ "/" ++ m.1)%string := Text m.2]> fs)
                 ms fs0 !! k = Some (Text d')).
    { induction ms as [|m ms IHms]; intros fs0 k d Hk; simpl; [eauto|].
      destruct (decide (norm (save_path ++ "/" ++ m.1)%string = k)) as [<-|Hne].
      - eapply IHms. apply lookup_insert_eq.
      - eapply IHms. rewrite lookup_insert_ne by exact Hne. exact Hk. }
    eapply G. apply lookup_insert_eq.
Qed.

Section ExtractorClaims.
Context {RS : RandomState}.
Variable to_numeric : list ascii -> Q.
Variable network : string -> option file.

(** C8.  With [download] set, an archive of plainly named members
    answered by the server, and [data] a directory in which the archive
    and the output directory can be written, lines 37-64 write the
    archive, extract every member under [data/ECG5000] and then remove
    the six files of [useless_files] one after the other, with no test
    that they exist: when the six are there, exactly they are deleted;
    when one of them is absent after the extraction, the removal raises,
    and with it the whole run. *)
Theorem extractor_removes_unchecked (global : rng) (a : args)
    (fs : gmap string file) (members : list (string * string)) :
  download a <> 0%Z ->
  network "http://www.timeseriesclassification.com/Downloads/ECG5000.zip"%string
  = Some (Zip members) ->
  download_ready fs = true ->
  extractable members fs = true ->
  let fs0 := if path_exists "data/ECG5000" fs then fs
             else os_mkdir "data/ECG5000" fs in
  let fs1 := <["data/ECG5000.zip"%string := Zip members]> fs0 in
  let extracted := extractall members "data/ECG5000" fs1 in
  fetch_and_extract network a fs = remove_all useless_files extracted /\
  (forall name data, In (name, data) members ->
     exists data', extracted !! ("data/ECG5000/" ++ name)%string = Some (Text data')) /\
  (List.Forall (fun p => exists f, extracted !! p = Some f /\ f <> Directory)
               useless_files ->
   fetch_and_extract network a fs
   = Ok (fold_left (fun m p => delete p m) useless_files extracted)) /\
  (forall p, In p useless_files -> extracted !! p = None ->
     raises (fetch_and_extract network a fs) /\
     raises (data_preparation to_numeric network global a fs)).
Proof.
  intros Hd Hnet _ _ fs0 fs1 extracted.
  assert (E : fetch_and_extract network a fs = remove_all useless_files extracted).
  { unfold fetch_and_extract. apply Z.eqb_neq in Hd. rewrite Hd. simpl negb.
    cbv iota. fold fs0. unfold download_url. rewrite Hnet.
    unfold bind, extractor. change (norm "data/ECG5000.zip") with "data/ECG5000.zip"%string.
    rewrite lookup_insert_eq. reflexivity. }
  assert (Hnorm : forall p, In p useless_files -> norm p = p).
  { intros p Hp. simpl in Hp.
    repeat (destruct Hp as [<-|Hp]; [reflexivity|]). destruct Hp. }
  split; [exact E|]. split; [|split].
  - intros name data Hin.
    destruct (extractall_lookup members "data/ECG5000" fs1 name data Hin)
      as (data' & Hl).
    exists data'. exact Hl.
  - intros Hall. rewrite E.
    rewrite (remove_all_present useless_files extracted).
    + reflexivity.
    + apply (bool_decide_unpack _). vm_compute. exact I.
    + rewrite List.Forall_forall in Hall |- *. intros p Hp.
      rewrite (Hnorm p Hp). auto.
  - intros p Hp Habs.
    assert (R : raises (fetch_and_extract network a fs)).
    { rewrite E. apply (remove_all_absent _ _ p Hp).
      rewrite (Hnorm p Hp). exact Habs. }
    split; [exact R|].
    unfold data_preparation. apply bind_Raise_l. exact R.
Qed.

End ExtractorClaims.

(** ** The Loader *)

#[local] Arguments isspace : simpl never.

(** Text without a whitespace run of two or more is one field. *)
Lemma re_split_from_single (s field ws : list ascii) :
  no_ws_run s = true ->
  ws = [] \/ (exists w, ws = [w]) /\ first_is_space s = false ->
  re_split_from field ws s = [rev field ++ rev ws ++ s].
Proof.
  revert field ws. induction s as [|c s IH]; intros field ws Hrun Hws.
  - simpl. destruct Hws as [->|[[w ->] _]]; simpl.
    + now rewrite app_nil_r.
    + reflexivity.
  - simpl in Hrun. apply andb_true_iff in Hrun as [Hc Hrun]. simpl.
    destruct (isspace c) eqn:Ec.
    + destruct Hws as [->|[_ Hf]]; [|simpl in Hf; congruence].
      rewrite IH; [reflexivity | exact Hrun |].
      right. split; [eauto|]. destruct s as [|c2 s]; [reflexivity|].
      simpl in *. now apply negb_true_iff in Hc.
    + destruct Hws as [->|[[w ->] _]]; simpl.
      * rewrite IH by auto. simpl. now rewrite <- app_assoc.
      * rewrite IH by auto. simpl. now rewrite <- !app_assoc.
Qed.

Lemma re_split_from_ws (ws' field ws b : list ascii) :
  forallb isspace ws' = true ->
  re_split_from field ws (ws' ++ b) = re_split_from field (rev ws' ++ ws) b.
Proof.
  revert ws. induction ws' as [|c ws' IH]; intros ws H; [reflexivity|].
  simpl in H. apply andb_true_iff in H as [Hc H]. simpl. rewrite Hc.
  rewrite IH by exact H. now rewrite <- app_assoc.
Qed.

(** A whitespace run of two or more between text that does not end and
    text that does not start with whitespace separates the two. *)
Lemma re_split_from_sep (a field w ws b : list ascii) :
  forallb isspace ws = true -> 2 <= length ws ->
  last_is_space a = false -> (a = [] -> w = []) ->
  first_is_space b = false ->
  re_split_from field w (a ++ ws ++ b) = re_split_from field w a ++ re_split b.
Proof.
  intros Hws Hlen. revert field w.
  induction a as [|c a IH]; intros field w Hlast Hw Hb.
  - rewrite (Hw eq_refl). simpl app at 1.
    rewrite re_split_from_ws by exact Hws. rewrite app_nil_r.
    assert (L : 2 <= length (rev ws)) by now rewrite length_rev.
    destruct (rev ws) as [|x [|y r]]; simpl in L; try lia.
    destruct b as [|c b]; [reflexivity|].
    simpl in Hb. unfold re_split. simpl. rewrite Hb. reflexivity.
  - simpl. destruct (isspace c) eqn:Ec.
    + apply IH; [| |exact Hb].
      * destruct a; [simpl in Hlast; congruence | exact Hlast].
      * intros ->. simpl in Hlast. congruence.
    + assert (Ha : last_is_space a = false).
      { destruct a; [reflexivity | exact Hlast]. }
      destruct w as [|x [|y w]]; simpl.
      * apply IH; auto.
      * apply IH; auto.
      * f_equal. apply IH; auto.
Qed.

(** * The rows of the loaded table *)

(** Every row the Loader produces has a first column: the conversion to
    records at line 83 cannot fail. *)
Lemma re_split_from_nonempty (s field ws : list ascii) :
  re_split_from field ws s <> [].
Proof.
  revert field ws. induction s as [|c s IH]; intros field ws; simpl.
  - destruct ws as [|x [|y ws]]; discriminate.
  - destruct (isspace c); [apply IH|].
    destruct ws as [|x [|y ws]]; [apply IH | apply IH | discriminate].
Qed.

Lemma read_table_rows (to_numeric : list ascii -> Q) (text : string) (df : DataFrame) :
  read_table to_numeric text = Ok df -> List.Forall (fun r => r <> []) (values df).
Proof.
  unfold read_table. intros H.
  destruct (List.filter _ _) as [|r rows] eqn:E; [discriminate|].
  injection H as <-. unfold values.
  change (List.Forall (fun r0 : list Q => r0 <> []) (map (map to_numeric) (r :: rows))).
  rewrite <- E.
  apply List.Forall_forall. intros r' Hr'.
  apply in_map_iff in Hr' as (fields & <- & Hf).
  apply List.filter_In in Hf as [Hf _].
  apply in_map_iff in Hf as (l & <- & _).
  pose proof (re_split_from_nonempty (strip l) [] []) as Hne.
  unfold re_split. destruct (re_split_from [] [] (strip l)); [congruence | discriminate].
Qed.

Lemma loader_rows (to_numeric : list ascii -> Q) (fs : gmap string file) (df : DataFrame) :
  loader to_numeric fs = Ok df ->
  exists rows, mapM to_row (values df) = Ok rows /\
               values df = map (fun r => Class r :: signal r) rows.
Proof.
  unfold loader. intros H.
  inv_bind H. rename a into train_txt. inv_bind H. rename a into train.
  inv_bind H. rename a into test_txt. inv_bind H. rename a into test.
  unfold rename_first in H.
  destruct (columns (concat train test)); [discriminate|].
  injection H as <-. cbn [values concat].
  apply read_table_rows in Ha0, Ha2.
  pose proof (proj2 (List.Forall_app _ _ _) (conj Ha0 Ha2)) as HF.
  induction HF as [|r rest Hr _ (rows & IH1 & IH2)]; [exists []; auto|].
  destruct r as [|x xs]; [congruence|].
  exists ({| Class := x; signal := xs |} :: rows). simpl.
  rewrite IH1. simpl. split; [reflexivity | congruence].
Qed.

(** * The small dataset, run through *)

(** The Loader turns the two small files into [toy_df]. *)
Example loader_toy_files :
  (let* df := loader toy_numeric toy_fs in mapM to_row (values df)) = Ok toy_df.
Proof. vm_compute. reflexivity. Qed.

(** A whole run on the small files saves the eight arrays. *)
Example data_preparation_toy_files :
  data_preparation (RS := reversing_rng) toy_numeric toy_network 0%Z toy_args toy_fs
  = Ok (serializer toy_arrays (os_mkdir "data/ECG5000/numpy" toy_fs), 0%Z).
Proof. vm_compute. reflexivity. Qed.

(** On the small dataset three of the five validation rows are
    anomalous, while [perc_val_an] is 3/8: the percentage is met against
    the five training rows, not within the validation set. *)
Example toy_fraction_is_against_train :
  length (X_train_n toy_splits) = 5 /\
  length (X_val_a toy_splits) = 3 /\
  length (X_val_n toy_splits ++ X_val_a toy_splits) = 5 /\
  (3 / (5 + 3) == perc_val_an toy_args)%Q /\
  ~ (3 / 5 == perc_val_an toy_args)%Q.
Proof. repeat split; try reflexivity. intros H. vm_compute in H. discriminate. Qed.

(** An anomalous share of 0.3 against seven training rows: line 92
    gives 3.0000000000000004, and the share of that count in the
    training rows plus itself is 0.30000000000000004, which [==] tells
    apart from [perc_val_an]. *)
Lemma n_anol_share_differs_on_doubles :
  Binary64.split_rows (RS := reversing_rng) 0%Z args64_an03 df_14_6
  = Ok (splits64_an03, 0%Z) /\
  length (Binary64.X_train_n splits64_an03) = 7 /\
  Binary64.n_anol splits64_an03 = 0x1.8000000000001p+1%float /\
  (Binary64.n_anol splits64_an03
   / (float_of_nat (length (Binary64.X_train_n splits64_an03))
      + Binary64.n_anol splits64_an03)
   =? Binary64.perc_val_an args64_an03)%float = false.
Proof. repeat split; vm_compute; reflexivity. Qed.

Lemma n_anol_relative_to_training_set_witness :
  Binary64.split_rows (RS := reversing_rng) 0%Z args64_tr06 toy_df
  = Ok (splits64_tr06, 0%Z) /\
  Binary64.n_anol splits64_tr06 = (float_of_nat 6 * 0.25 / (1 - 0.25))%float /\
  Binary64.perc_anol_val_a splits64_tr06 = (2 / float_of_nat 6)%float /\
  Binary64.perc_anol_test_a splits64_tr06 = (1 - 2 / float_of_nat 6)%float /\
  math_ceil (Binary64.perc_anol_test_a splits64_tr06 * float_of_nat 6) = Some 4%Z /\
  length (Binary64.X_val_a splits64_tr06) = 2 /\
  length (Binary64.X_test_a splits64_tr06) = 4 /\
  (exact 0.25 == 1 # 4)%Q /\
  (len_Q (Binary64.X_train_n splits64_tr06) * exact 0.25 / (1 - exact 0.25)
   / (len_Q (Binary64.X_train_n splits64_tr06)
      + len_Q (Binary64.X_train_n splits64_tr06) * exact 0.25 / (1 - exact 0.25))
   == exact 0.25)%Q.
Proof.
  assert (H : Binary64.split_rows (RS := reversing_rng) 0%Z args64_tr06 toy_df
              = Ok (splits64_tr06, 0%Z)) by (vm_compute; reflexivity).
  split; [exact H|].
  destruct (n_anol_relative_to_training_set (RS := reversing_rng)
              0%Z args64_tr06 toy_df splits64_tr06 0%Z H)
    as (_ & Hn & Hv & Ht & _ & Hc & Hl & _ & _ & Hq).
  split; [exact Hn|]. split; [exact Hv|]. split; [exact Ht|].
  split; [exact Hc|]. split; [exact Hl|]. split; [reflexivity|].
  split; [vm_compute; reflexivity | exact Hq].
Defined.

Lemma splits_partition_their_inputs_witness :
  split_rows (RS := reversing_rng) 0%Z toy_args toy_df = Ok (toy_splits, 0%Z) /\
  Permutation (X_train_n toy_splits ++ X_val_n toy_splits ++ X_test_n toy_splits)
              (List.filter is_normal toy_df) /\
  length (X_train_n toy_splits) + length (X_val_n toy_splits)
  + length (X_test_n toy_splits) = length (List.filter is_normal toy_df) /\
  Permutation (X_val_a toy_splits ++ X_test_a toy_splits)
              (List.filter (fun r => negb (is_normal r)) toy_df) /\
  length (X_val_a toy_splits) + length (X_test_a toy_splits)
  = length (List.filter (fun r => negb (is_normal r)) toy_df).
Proof.
  assert (H : split_rows (RS := reversing_rng) 0%Z toy_args toy_df
              = Ok (toy_splits, 0%Z)) by (vm_compute; reflexivity).
  split; [exact H|].
  exact (splits_partition_their_inputs (RS := reversing_rng) 0%Z toy_args toy_df toy_splits 0%Z H).
Defined.

Lemma train_is_normal_only_witness :
  partition (RS := reversing_rng) 0%Z toy_args toy_df = Ok (toy_arrays, 0%Z) /\
  List.Forall (fun c => (c == 1)%Q) (y_train toy_arrays) /\
  List.filter (fun c => negb (Qeq_bool c 1)) (y_train toy_arrays) = [] /\
  exists rs, X_train toy_arrays = map signal rs /\ y_train toy_arrays = map Class rs /\
             List.Forall (fun r => In r toy_df /\ is_normal r = true) rs.
Proof.
  assert (H : partition (RS := reversing_rng) 0%Z toy_args toy_df
              = Ok (toy_arrays, 0%Z)) by (vm_compute; reflexivity).
  split; [exact H|].
  exact (train_is_normal_only (RS := reversing_rng) 0%Z toy_args toy_df toy_arrays 0%Z H).
Defined.

Lemma val_p_strict_subset_of_val_witness :
  partition (RS := reversing_rng) 0%Z toy_args toy_df = Ok (toy_arrays, 0%Z) /\
  (forall r, In r (records (X_val_p toy_arrays) (y_val_p toy_arrays)) ->
             In r (records (X_val toy_arrays) (y_val toy_arrays))) /\
  (exists r, In r (records (X_val toy_arrays) (y_val toy_arrays)) /\
             ~ In r (records (X_val_p toy_arrays) (y_val_p toy_arrays))) /\
  (exists extra, extra <> [] /\
     records (X_val toy_arrays) (y_val toy_arrays)
     = records (X_val_p toy_arrays) (y_val_p toy_arrays) ++ extra).
Proof.
  assert (H : partition (RS := reversing_rng) 0%Z toy_args toy_df
              = Ok (toy_arrays, 0%Z)) by (vm_compute; reflexivity).
  split; [exact H|].
  exact (val_p_strict_subset_of_val (RS := reversing_rng) 0%Z toy_args toy_df toy_arrays 0%Z H).
Defined.

Lemma saved_arrays_are_parallel_witness :
  partition (RS := reversing_rng) 0%Z toy_args toy_df = Ok (toy_arrays, 0%Z) /\
  parallel_arrays toy_df (X_train toy_arrays) (y_train toy_arrays) /\
  parallel_arrays toy_df (X_val toy_arrays) (y_val toy_arrays) /\
  parallel_arrays toy_df (X_val_p toy_arrays) (y_val_p toy_arrays) /\
  parallel_arrays toy_df (X_test toy_arrays) (y_test toy_arrays).
Proof.
  assert (H : partition (RS := reversing_rng) 0%Z toy_args toy_df
              = Ok (toy_arrays, 0%Z)) by (vm_compute; reflexivity).
  split; [exact H|].
  exact (saved_arrays_are_parallel (RS := reversing_rng) 0%Z toy_args toy_df toy_arrays 0%Z H).
Defined.

Lemma normal_rows_precede_anomalous_witness :
  split_rows (RS := reversing_rng) 0%Z toy_args toy_df = Ok (toy_splits, 0%Z) /\
  y_val (assemble toy_splits)
  = map Class (X_val_n toy_splits) ++ map Class (X_val_a toy_splits) /\
  y_test (assemble toy_splits)
  = map Class (X_test_n toy_splits) ++ map Class (X_test_a toy_splits) /\
  (forall i j ci cj,
      nth_error (y_val (assemble toy_splits)) i = Some ci -> (ci == 1)%Q ->
      nth_error (y_val (assemble toy_splits)) j = Some cj -> ~ (cj == 1)%Q -> i < j).
Proof.
  assert (H : split_rows (RS := reversing_rng) 0%Z toy_args toy_df
              = Ok (toy_splits, 0%Z)) by (vm_compute; reflexivity).
  split; [exact H|].
  destruct (normal_rows_precede_anomalous (RS := reversing_rng) 0%Z toy_args toy_df toy_splits 0%Z H)
    as (_ & Hy & _ & Ht & Ho & _).
  auto.
Defined.


Lemma runs_are_reproducible_witness :
  data_preparation (RS := reversing_rng) toy_numeric toy_network 0%Z toy_args toy_fs
  = Ok (serializer toy_arrays (os_mkdir "data/ECG5000/numpy" toy_fs), 0%Z) /\
  data_preparation (RS := reversing_rng) toy_numeric toy_network 5%Z toy_args toy_fs
  = Ok (serializer toy_arrays (os_mkdir "data/ECG5000/numpy" toy_fs), 5%Z) /\
  exists o, saved o (serializer toy_arrays (os_mkdir "data/ECG5000/numpy" toy_fs)).
Proof.
  assert (H1 : data_preparation (RS := reversing_rng) toy_numeric toy_network
                 0%Z toy_args toy_fs
               = Ok (serializer toy_arrays (os_mkdir "data/ECG5000/numpy" toy_fs), 0%Z))
    by (vm_compute; reflexivity).
  assert (H2 : data_preparation (RS := reversing_rng) toy_numeric toy_network
                 5%Z toy_args toy_fs
               = Ok (serializer toy_arrays (os_mkdir "data/ECG5000/numpy" toy_fs), 5%Z))
    by (vm_compute; reflexivity).
  split; [exact H1|]. split; [exact H2|].
  destruct (runs_are_reproducible (RS := reversing_rng) toy_numeric toy_network
              0%Z 5%Z toy_args toy_fs) as [_ H].
  destruct (H _ _ _ _ H1 H2) as (_ & o & Ho & _).
  exists o. exact Ho.
Defined.

(** With 0.75 against two training rows line 92 gives 6.0 and line 93
    6/7, yet five anomalous rows go to validation: one minus the
    fraction, times seven, is a little above 1 and rounds up to 2. *)
Example rounding_changes_the_count :
  Binary64.split_rows (RS := reversing_rng) 0%Z args64_an075 df_4_7
  = Ok (splits64_an075, 0%Z) /\
  Binary64.n_anol splits64_an075 = 6%float /\
  length (Binary64.X_val_a splits64_an075) = 5 /\
  length (Binary64.X_test_a splits64_an075) = 2.
Proof. repeat split; vm_compute; reflexivity. Qed.

(** The double nearest to 0.01 as [perc_val_an] makes the run raise as
    well. *)
Example near_zero_raises_on_doubles :
  Binary64.split_rows (RS := reversing_rng) 0%Z args64_an_near_zero toy_df
  = Raise ValueError.
Proof. vm_compute. reflexivity. Qed.


Lemma extractor_removes_unchecked_witness :
  fetch_and_extract toy_network args_download empty_fs
  = Ok (fold_left (fun m p => delete p m) useless_files
          (extractall toy_members "data/ECG5000"
             (<["data/ECG5000.zip"%string := Zip toy_members]>
                (os_mkdir "data/ECG5000" empty_fs)))) /\
  raises (fetch_and_extract short_network args_download empty_fs) /\
  raises (data_preparation (RS := reversing_rng) toy_numeric short_network 0%Z
            args_download empty_fs).
Proof.
  split.
  - apply (extractor_removes_unchecked (RS := reversing_rng) toy_numeric toy_network
             0%Z args_download empty_fs toy_members);
      [discriminate | reflexivity | reflexivity | reflexivity |].
    repeat constructor; eexists; (split; [vm_compute; reflexivity | discriminate]).
  - apply (extractor_removes_unchecked (RS := reversing_rng) toy_numeric short_network
             0%Z args_download empty_fs (tl toy_members))
      with (p := "data/ECG5000/ECG5000.txt"%string);
      [discriminate | reflexivity | reflexivity | reflexivity | |
       vm_compute; reflexivity].
    simpl. tauto.
Defined.

(** * Further properties of the Partitioner *)

Lemma filter_split_Permutation {A : Type} (f : A -> bool) (l : list A) :
  Permutation (List.filter f l ++ List.filter (fun x => negb (f x)) l) l.
Proof.
  induction l as [|x l IH]; simpl; [constructor|].
  destruct (f x); simpl.
  - constructor. exact IH.
  - rewrite <- Permutation_middle. constructor. exact IH.
Qed.

Section PartitionerMore.
Context {RS : RandomState}.

(** What a completed run tells about its first two splits. *)
Lemma split_rows_sides (global : rng) (a : args) (df : list row)
    (s : splits) (g : rng) :
  split_rows global a df = Ok (s, g) ->
  ((0 < 1 - perc_tr_n a)%Q /\ (1 - perc_tr_n a < 1)%Q) /\
  ((0 < 1 - perc_val_n a)%Q /\ (1 - perc_val_n a < 1)%Q) /\
  length (X_val_n s) + length (X_test_n s)
  = Z.to_nat (Qceiling ((1 - perc_tr_n a) * len_Q (List.filter is_normal df))) /\
  length (X_test_n s)
  = Z.to_nat (Qceiling ((1 - perc_val_n a)
                        * inject_Z (Z.of_nat (length (X_val_n s) + length (X_test_n s))))) /\
  0 < length (X_val_n s) /\ 0 < length (X_test_n s).
Proof.
  unfold split_rows. intros H.
  inv_bind H. destruct a0 as [[tr rest] g1].
  inv_bind H. destruct a0 as [[vn tn] g2].
  inv_bind H. inv_bind H. inv_bind H. destruct a2 as [[va ta] g3].
  injection H as <- <-. simpl.
  apply train_test_split_Ok in Ha, Ha0.
  destruct Ha as (P1 & A0 & A1 & L1 & _ & _).
  destruct Ha0 as (P2 & B0 & B1 & L2 & N2 & N3).
  apply Permutation_length in P2. rewrite length_app in P2.
  unfold len_Q in *. rewrite P2, <- L1, <- L2.
  repeat split; auto.
Qed.

(** X1.  The three saved partitions hold the records of the table, each
    once: train, val and test together rearrange the table, and their
    sizes add up to its number of rows. *)
Theorem partitions_cover_the_table (global : rng) (a : args) (df : list row)
    (o : arrays) (g : rng) :
  partition global a df = Ok (o, g) ->
  Permutation (records (X_train o) (y_train o)
               ++ records (X_val o) (y_val o)
               ++ records (X_test o) (y_test o))
              (map (fun r => (signal r, Class r)) df) /\
  length (X_train o) + length (X_val o) + length (X_test o) = length df.
Proof.
  intros H. apply partition_Ok in H as (s & Hs & ->).
  apply split_rows_Ok in Hs. destruct Hs. simpl.
  assert (P : Permutation
                (X_train_n s ++ (X_val_n s ++ X_val_a s) ++ X_test_n s ++ X_test_a s) df).
  { rewrite <- (filter_split_Permutation is_normal df).
    rewrite <- spec_normal0, <- spec_anomaly0.
    rewrite <- spec_normal_perm0, <- spec_anomaly_perm0.
    rewrite <- !app_assoc. do 2 apply Permutation_app_head.
    rewrite !app_assoc. apply Permutation_app_tail, Permutation_app_comm. }
  split.
  - rewrite !records_app by (now rewrite !length_map).
    rewrite !records_map, <- !map_app. apply Permutation_map. exact P.
  - apply Permutation_length in P. rewrite <- P.
    rewrite !length_app, !length_map. lia.
Qed.

(** X2.  The sizes of the three normal parts are fixed by the number of
    normal rows and the first two percentages, as Python rounds them:
    the first split sets aside
    [rest = ceil((1 - perc_tr_n) * |normal|)] rows, of which the second
    gives [ceil((1 - perc_val_n) * rest)] to test and the others to
    validation; training gets the remaining [|normal| - rest]. *)
Theorem normal_part_sizes (global : rng) (a : Binary64.args) (df : list row)
    (s : Binary64.splits) (g : rng) :
  Binary64.split_rows global a df = Ok (s, g) ->
  let n_normal := length (List.filter is_normal df) in
  exists rest : nat,
    math_ceil ((1 - Binary64.perc_tr_n a) * float_of_nat n_normal)
    = Some (Z.of_nat rest) /\
    math_ceil ((1 - Binary64.perc_val_n a) * float_of_nat rest)
    = Some (Z.of_nat (length (Binary64.X_test_n s))) /\
    length (Binary64.X_train_n s) = n_normal - rest /\
    length (Binary64.X_val_n s) = rest - length (Binary64.X_test_n s) /\
    0 < length (Binary64.X_test_n s) /\
    length (Binary64.X_test_n s) < rest /\ rest < n_normal.
Proof.
  intros H n_normal.
  apply split_rows64_Ok in H
    as (HN & _ & (rest & g1 & g2 & H1 & H2 & _) & _).
  apply train_test_split64_Ok in H1 as (P1 & _ & _ & C1 & N1 & _).
  apply train_test_split64_Ok in H2 as (P2 & _ & _ & C2 & N2 & N3).
  apply Permutation_length in P1, P2. rewrite length_app in P1, P2.
  rewrite HN in P1, C1. fold n_normal in P1, C1.
  exists (length rest). repeat split; auto; lia.
Qed.


End PartitionerMore.

(** ** Sizes, labels and the checks of the stratified split *)

Lemma unique_covers (y : list Q) (c : Q) :
  In c y -> exists c', In c' (unique y) /\ (c' == c)%Q.
Proof.
  induction y as [|d y IH]; intros Hin; [destruct Hin|].
  simpl. destruct Hin as [->|Hin].
  - exists c. split; [now left | reflexivity].
  - destruct (IH Hin) as (c' & Hc' & E).
    destruct (Qeq_bool d c') eqn:Ed.
    + exists d. split; [now left|].
      apply Qeq_bool_iff in Ed. rewrite Ed. exact E.
    + exists c'. split; [|exact E]. right.
      apply List.filter_In. split; [exact Hc'|]. now rewrite Ed.
Qed.

Lemma class_count_Qeq (y : list Q) (c c' : Q) :
  (c' == c)%Q -> class_count y c' = class_count y c.
Proof.
  intros E. unfold class_count. f_equal. apply List.filter_ext. intros d.
  destruct (Qeq_bool c' d) eqn:E1; destruct (Qeq_bool c d) eqn:E2; try reflexivity.
  - apply Qeq_bool_iff in E1. rewrite E in E1. apply Qeq_bool_iff in E1. congruence.
  - apply Qeq_bool_iff in E2. rewrite <- E in E2. apply Qeq_bool_iff in E2. congruence.
Qed.

Lemma stratified_checks_Ok (y : list Q) (n_train n_test : nat) :
  stratified_checks y n_train n_test = Ok tt ->
  (forall c, In c y -> 2 <= class_count y c) /\
  length (unique y) <= n_train /\ length (unique y) <= n_test.
Proof.
  unfold stratified_checks.
  destruct (existsb _ _) eqn:E1; [discriminate|].
  destruct (n_train <? _) eqn:E2; [discriminate|].
  destruct (n_test <? _) eqn:E3; [discriminate|]. intros _.
  apply Nat.ltb_ge in E2, E3. split; [|split; assumption].
  intros c Hc. destruct (unique_covers y c Hc) as (c' & Hc' & E).
  rewrite <- (class_count_Qeq y c c' E).
  destruct (Nat.lt_ge_cases (class_count y c') 2) as [Hlt|Hge]; [|exact Hge].
  assert (existsb (fun c0 => class_count y c0 <? 2) (unique y) = true).
  { apply existsb_exists. exists c'. split; [exact Hc'|]. now apply Nat.ltb_lt. }
  congruence.
Qed.

Section PartitionerSizes.
Context {RS : RandomState}.

(** A completed [train_test_split] has passed the size validation with
    the sizes of its two parts and, with [stratify], the checks of the
    stratified splitter. *)
Lemma train_test_split_sizes {A : Type} (global : rng) (X : list A)
    (random_state : option Z) (test_size : Q) (stratify : option (list Q))
    (tr te : list A) (g' : rng) :
  train_test_split global X random_state test_size stratify = Ok (tr, te, g') ->
  validate_shuffle_split (length X) test_size = Ok (length tr, length te) /\
  match stratify with
  | None => True
  | Some y => length y = length X /\
              stratified_checks y (length tr) (length te) = Ok tt
  end.
Proof.
  unfold train_test_split. intros H.
  inv_bind H. destruct a as [n_train n_test].
  pose proof (validate_shuffle_split_Ok _ _ _ _ Ha) as (_ & _ & _ & Hsum & _ & _).
  inv_bind H. destruct a as [[itr ite] g1].
  inv_bind H. inv_bind H. injection H as <- <- <-.
  apply iloc_length in Ha1, Ha2.
  assert (Hidx : length itr = n_train /\ length ite = n_test /\
                 match stratify with
                 | None => True
                 | Some y => length y = length X /\
                             stratified_checks y n_train n_test = Ok tt
                 end).
  { destruct stratify as [y|].
    - destruct (length y =? length X) eqn:Ey; simpl in Ha0; [|discriminate].
      apply Nat.eqb_eq in Ey.
      inv_bind Ha0. match goal with u : unit |- _ => destruct u end.
      injection Ha0 as Ha0.
      pose proof (stratified_indices_perm
                    (check_random_state global random_state) y n_train n_test) as HP.
      pose proof (stratified_indices_length
                    (check_random_state global random_state) y n_train n_test) as HL.
      rewrite Ha0 in HP, HL. simpl in HP, HL. rewrite Ey in HP, HL.
      specialize (HP Hsum). specialize (HL Hsum).
      apply Permutation_length in HP. rewrite length_app, length_seq in HP.
      repeat split; auto; lia.
    - injection Ha0 as Ha0.
      pose proof (shuffle_split_indices_perm
                    (check_random_state global random_state)
                    (length X) n_train n_test Hsum) as HP.
      rewrite Ha0 in HP. tauto. }
  destruct Hidx as (L1 & L2 & Hs).
  rewrite Ha1, Ha2, L1, L2. split; [exact Ha | exact Hs].
Qed.

(** The calls of lines 87-98 of a completed run, by their sizes. *)
Lemma split_rows_calls (global : rng) (a : args) (df : list row)
    (s : splits) (g : rng) :
  split_rows global a df = Ok (s, g) ->
  validate_shuffle_split (length (normal s)) (1 - perc_tr_n a)%Q
  = Ok (length (X_train_n s), length (X_val_n s) + length (X_test_n s)) /\
  validate_shuffle_split (length (X_val_n s) + length (X_test_n s)) (1 - perc_val_n a)%Q
  = Ok (length (X_val_n s), length (X_test_n s)) /\
  validate_shuffle_split (length (anomaly s)) (perc_anol_test_a s)
  = Ok (length (X_val_a s), length (X_test_a s)) /\
  stratified_checks (map Class (anomaly s)) (length (X_val_a s)) (length (X_test_a s))
  = Ok tt.
Proof.
  unfold split_rows. intros H.
  inv_bind H. destruct a0 as [[tr rest] g1].
  inv_bind H. destruct a0 as [[vn tn] g2].
  inv_bind H. inv_bind H. inv_bind H. destruct a2 as [[va ta] g3].
  injection H as <- <-. simpl.
  pose proof (train_test_split_Ok _ _ _ _ _ _ _ _ Ha0) as (P2 & _).
  apply Permutation_length in P2. rewrite length_app in P2.
  apply train_test_split_sizes in Ha as [V1 _].
  apply train_test_split_sizes in Ha0 as [V2 _].
  apply train_test_split_sizes in Ha3 as [V3 [_ C3]].
  rewrite P2. auto.
Qed.

(** X4.  No saved partition is empty, and the validation and the test
    partition each hold a normal and an anomalous label: every split of
    a completed run has two non-empty sides. *)
Theorem partitions_are_not_empty (global : rng) (a : args) (df : list row)
    (o : arrays) (g : rng) :
  partition global a df = Ok (o, g) ->
  0 < length (y_train o) /\ 0 < length (y_val_p o) /\
  (exists c, In c (y_val o) /\ (c == 1)%Q) /\
  (exists c, In c (y_val o) /\ ~ (c == 1)%Q) /\
  (exists c, In c (y_test o) /\ (c == 1)%Q) /\
  (exists c, In c (y_test o) /\ ~ (c == 1)%Q).
Proof.
  intros H. apply partition_Ok in H as (s & Hs & ->).
  pose proof (split_rows_sides _ _ _ _ _ Hs) as (_ & _ & _ & _ & Nv & Nt).
  pose proof (split_rows_labels _ _ _ _ _ Hs) as [Hn Ha].
  apply split_rows_Ok in Hs. destruct Hs. simpl.
  assert (Pick : forall l : list row, 0 < length l -> exists r, In r l).
  { intros [|r l] Hl; [simpl in Hl; lia | exists r; now left]. }
  assert (N : forall r l, In r l ->
                (forall r', In r' l -> In r' (X_train_n s ++ X_val_n s ++ X_test_n s)) ->
                (Class r == 1)%Q).
  { intros r l Hr Hl. apply is_normal_Qeq. apply Hn, Hl, Hr. }
  assert (A : forall r l, In r l ->
                (forall r', In r' l -> In r' (X_val_a s ++ X_test_a s)) ->
                ~ (Class r == 1)%Q).
  { intros r l Hr Hl E. apply is_normal_Qeq in E.
    destruct (Ha r (Hl r Hr)) as [_ F]. congruence. }
  rewrite !length_map. split; [exact spec_train_nonempty0|]. split; [exact Nv|].
  destruct (Pick _ Nv) as (rv & Hrv). destruct (Pick _ Nt) as (rt & Hrt).
  destruct (Pick _ spec_val_a_nonempty0) as (ra & Hra).
  destruct (Pick _ spec_test_a_nonempty0) as (rb & Hrb).
  split; [|split; [|split]].
  - exists (Class rv). split; [apply in_or_app; left; now apply in_map|].
    apply (N rv (X_val_n s) Hrv). intros r' Hr'.
    apply in_or_app. right. apply in_or_app. now left.
  - exists (Class ra). split; [apply in_or_app; right; now apply in_map|].
    apply (A ra (X_val_a s) Hra). intros r' Hr'. apply in_or_app. now left.
  - exists (Class rt). split; [apply in_or_app; left; now apply in_map|].
    apply (N rt (X_test_n s) Hrt). intros r' Hr'.
    apply in_or_app. right. apply in_or_app. now right.
  - exists (Class rb). split; [apply in_or_app; right; now apply in_map|].
    apply (A rb (X_test_a s) Hrb). intros r' Hr'. apply in_or_app. now right.
Qed.

(** X5.  The stratified split asks for every anomalous label at least
    twice and for as many rows on each side as there are distinct
    anomalous labels: a completed run has met this, and a table with an
    anomalous label that occurs once makes the run raise. *)
Theorem anomalous_labels_requirements (global : rng) (a : args) (df : list row) :
  (forall s g, split_rows global a df = Ok (s, g) ->
     (forall r, In r df -> is_normal r = false ->
                2 <= class_count (map Class (anomaly s)) (Class r)) /\
     length (unique (map Class (anomaly s))) <= length (X_val_a s) /\
     length (unique (map Class (anomaly s))) <= length (X_test_a s)) /\
  ((exists r, In r df /\ is_normal r = false /\
              class_count (map Class (List.filter (fun r => negb (is_normal r)) df))
                          (Class r) < 2) ->
   raises (split_rows global a df)).
Proof.
  assert (G : forall s g, split_rows global a df = Ok (s, g) ->
     (forall r, In r df -> is_normal r = false ->
                2 <= class_count (map Class (anomaly s)) (Class r)) /\
     length (unique (map Class (anomaly s))) <= length (X_val_a s) /\
     length (unique (map Class (anomaly s))) <= length (X_test_a s)).
  { intros s g H.
    pose proof (split_rows_calls _ _ _ _ _ H) as (_ & _ & _ & C).
    apply stratified_checks_Ok in C as (C1 & C2 & C3).
    apply split_rows_Ok in H. destruct H.
    split; [|split; assumption].
    intros r Hr Hf. apply C1. apply in_map. rewrite spec_anomaly0.
    apply List.filter_In. split; [exact Hr|]. now rewrite Hf. }
  split; [exact G|].
  intros (r & Hr & Hf & Hc). apply not_Ok_raises. intros [s g] H.
  destruct (G s g H) as (C1 & _).
  apply split_rows_Ok in H. destruct H.
  specialize (C1 r Hr Hf). rewrite spec_anomaly0 in C1. lia.
Qed.

(** X7.  The training set and the normal validation and test rows do
    not depend on [perc_val_an]: two completed runs on the same table
    with the same [perc_tr_n] and [perc_val_n] save the same [train] and
    [val_p] arrays, whatever the global generator was. *)
Theorem normal_parts_ignore_perc_val_an (g1 g2 : rng) (a1 a2 : args)
    (df : list row) (s1 s2 : splits) (g1' g2' : rng) :
  perc_tr_n a1 = perc_tr_n a2 -> perc_val_n a1 = perc_val_n a2 ->
  split_rows g1 a1 df = Ok (s1, g1') -> split_rows g2 a2 df = Ok (s2, g2') ->
  (X_train_n s1 = X_train_n s2 /\ X_val_n s1 = X_val_n s2 /\
   X_test_n s1 = X_test_n s2) /\
  X_train (assemble s1) = X_train (assemble s2) /\
  y_train (assemble s1) = y_train (assemble s2) /\
  X_val_p (assemble s1) = X_val_p (assemble s2) /\
  y_val_p (assemble s1) = y_val_p (assemble s2).
Proof.
  intros E1 E2 H1 H2.
  assert (G : X_train_n s1 = X_train_n s2 /\ X_val_n s1 = X_val_n s2 /\
              X_test_n s1 = X_test_n s2).
  { unfold split_rows in H1, H2. rewrite <- E1, <- E2 in H2.
    pose proof (train_test_split_seeded g1 g2 (List.filter is_normal df)
                  88%Z (1 - perc_tr_n a1)%Q None) as T1.
    destruct (train_test_split g1 (List.filter is_normal df) _ _ _)
      as [[[tr1 re1] h1]|e1]; [|discriminate].
    destruct (train_test_split g2 (List.filter is_normal df) _ _ _)
      as [[[tr2 re2] h2]|e2]; [|discriminate].
    destruct T1 as (<- & <- & -> & ->). simpl in H1, H2.
    pose proof (train_test_split_seeded g1 g2 re1 88%Z (1 - perc_val_n a1)%Q None) as T2.
    destruct (train_test_split g1 re1 _ _ _) as [[[vn1 tn1] h1]|e1]; [|discriminate].
    destruct (train_test_split g2 re1 _ _ _) as [[[vn2 tn2] h2]|e2]; [|discriminate].
    destruct T2 as (<- & <- & -> & ->). simpl in H1, H2.
    apply bind_Ok in H1 as (n1 & _ & H1). apply bind_Ok in H1 as (pv1 & _ & H1).
    apply bind_Ok in H1 as ([[va1 ta1] k1] & _ & H1).
    apply bind_Ok in H2 as (n2 & _ & H2). apply bind_Ok in H2 as (pv2 & _ & H2).
    apply bind_Ok in H2 as ([[va2 ta2] k2] & _ & H2).
    injection H1 as <- _. injection H2 as <- _. simpl. auto. }
  split; [exact G|]. destruct G as (E3 & E4 & _). simpl.
  rewrite E3, E4. auto.
Qed.

End PartitionerSizes.

(** * Further properties of the Serializer and of whole runs *)

Lemma serializer_union (o : arrays) (fs : gmap string file) :
  serializer o fs = serializer o ∅ ∪ fs.
Proof.
  unfold serializer, np_save1, np_save2.
  rewrite <- !insert_union_l. now rewrite (left_id_L ∅ (∪)).
Qed.

Lemma serializer_empty_other (o : arrays) (p : string) :
  ~ In p output_paths -> serializer o ∅ !! p = None.
Proof.
  intros Hp. unfold serializer, np_save1, np_save2. simpl norm.
  repeat (rewrite lookup_insert_ne;
          [| intros <-; apply Hp; simpl; tauto]).
  apply lookup_empty.
Qed.

(** The Serializer writes its eight files and nothing else. *)
Lemma serializer_other (o : arrays) (fs : gmap string file) (p : string) :
  ~ In p output_paths -> serializer o fs !! p = fs !! p.
Proof.
  intros Hp. rewrite serializer_union.
  apply lookup_union_r, serializer_empty_other, Hp.
Qed.

(** Saving the same arrays again changes nothing. *)
Lemma serializer_idem (o : arrays) (fs : gmap string file) :
  serializer o (serializer o fs) = serializer o fs.
Proof.
  rewrite (serializer_union o (serializer o fs)), (serializer_union o fs).
  rewrite (assoc_L (∪)). now rewrite (idemp_L (∪)).
Qed.

Lemma loader_frame (to_numeric : list ascii -> Q) (fs1 fs2 : gmap string file) :
  fs1 !! "data/ECG5000/ECG5000_TRAIN.txt"%string
  = fs2 !! "data/ECG5000/ECG5000_TRAIN.txt"%string ->
  fs1 !! "data/ECG5000/ECG5000_TEST.txt"%string
  = fs2 !! "data/ECG5000/ECG5000_TEST.txt"%string ->
  loader to_numeric fs1 = loader to_numeric fs2.
Proof.
  intros H1 H2. unfold loader, read_text. simpl norm. now rewrite H1, H2.
Qed.

Section WholeRun.
Context {RS : RandomState}.
Variable to_numeric : list ascii -> Q.
Variable network : string -> option file.

(** The global generator is handed back as it was received. *)
Lemma train_test_split_keeps_global {A : Type} (global : rng) (X : list A)
    (seed : Z) (test_size : Q) (stratify : option (list Q))
    (tr te : list A) (g' : rng) :
  train_test_split global X (Some seed) test_size stratify = Ok (tr, te, g') ->
  g' = global.
Proof.
  intros H.
  pose proof (train_test_split_seeded global global X seed test_size stratify) as T.
  rewrite H in T. tauto.
Qed.

Lemma split_rows_global (global : rng) (a : args) (df : list row)
    (s : splits) (g : rng) :
  split_rows global a df = Ok (s, g) -> g = global.
Proof.
  unfold split_rows. intros H.
  apply bind_Ok in H as ([[tr rest] g1] & H1 & H).
  apply bind_Ok in H as ([[vn tn] g2] & H2 & H).
  apply bind_Ok in H as (n & _ & H). apply bind_Ok in H as (pv & _ & H).
  apply bind_Ok in H as ([[va ta] g3] & H3 & H).
  injection H as _ <-.
  apply train_test_split_keeps_global in H1, H2, H3. congruence.
Qed.

(** A run without download, step by step. *)
Lemma data_preparation_no_download (g : rng) (a : args)
    (fs fs' : gmap string file) (g' : rng) :
  download a = 0%Z ->
  data_preparation to_numeric network g a fs = Ok (fs', g') ->
  let fsm := if path_exists "data/ECG5000/numpy" fs then fs
             else os_mkdir "data/ECG5000/numpy" fs in
  exists df rows o,
    loader to_numeric fsm = Ok df /\
    mapM to_row (values df) = Ok rows /\
    partition g a rows = Ok (o, g') /\
    fs' = serializer o fsm.
Proof.
  intros Hd H fsm. unfold data_preparation, fetch_and_extract in H.
  rewrite Hd in H. simpl in H. fold fsm in H.
  apply bind_Ok in H as (df & Hdf & H).
  apply bind_Ok in H as (rows & Hrows & H).
  apply bind_Ok in H as ([o g0] & Ho & H).
  injection H as <- <-. eauto 10.
Qed.

(** X9.  A completed run without download changes nothing but its
    outputs: every path other than the output directory and the eight
    array files holds what it held, the directory exists afterwards and
    is left alone if it was there, and the global generator is as it
    was. *)
Theorem run_touches_only_its_outputs (g : rng) (a : args)
    (fs fs' : gmap string file) (g' : rng) :
  download a = 0%Z ->
  data_preparation to_numeric network g a fs = Ok (fs', g') ->
  (forall p, p <> "data/ECG5000/numpy"%string -> ~ In p output_paths ->
             fs' !! p = fs !! p) /\
  (exists f, fs' !! "data/ECG5000/numpy"%string = Some f) /\
  (forall f, fs !! "data/ECG5000/numpy"%string = Some f ->
             fs' !! "data/ECG5000/numpy"%string = Some f) /\
  g' = g.
Proof.
  intros Hd H.
  destruct (data_preparation_no_download _ _ _ _ _ Hd H)
    as (df & rows & o & _ & _ & Ho & ->).
  assert (Hn : ~ In "data/ECG5000/numpy"%string output_paths).
  { simpl. intros K. repeat (destruct K as [K|K]; [discriminate|]). exact K. }
  unfold path_exists, os_mkdir. simpl norm.
  split; [|split; [|split]].
  - intros p Hp Hout. rewrite serializer_other by exact Hout.
    destruct (fs !! "data/ECG5000/numpy"%string); [reflexivity|].
    now rewrite lookup_insert_ne.
  - rewrite serializer_other by exact Hn.
    destruct (fs !! "data/ECG5000/numpy"%string) as [f|] eqn:E; [eauto|].
    rewrite lookup_insert_eq. eauto.
  - intros f Hf. rewrite serializer_other by exact Hn. now rewrite Hf.
  - unfold partition in Ho. apply bind_Ok in Ho as ([s g0] & Hs & Ho).
    injection Ho as _ <-. eapply split_rows_global. exact Hs.
Qed.

(** X10.  Running again on the files a completed run has left gives the
    same files: without download the script reads only the two text
    files, which it does not change, and saves the same arrays over the
    ones it saved. *)
Theorem rerun_is_idempotent (g : rng) (a : args)
    (fs fs' : gmap string file) (g' : rng) :
  download a = 0%Z ->
  data_preparation to_numeric network g a fs = Ok (fs', g') ->
  data_preparation to_numeric network g a fs' = Ok (fs', g').
Proof.
  intros Hd H.
  destruct (data_preparation_no_download _ _ _ _ _ Hd H)
    as (df & rows & o & Hdf & Hrows & Ho & ->).
  set (fsm := if path_exists "data/ECG5000/numpy" fs then fs
              else os_mkdir "data/ECG5000/numpy" fs) in *.
  assert (Hn : ~ In "data/ECG5000/numpy"%string output_paths).
  { simpl. intros K. repeat (destruct K as [K|K]; [discriminate|]). exact K. }
  assert (Hm : exists f, fsm !! "data/ECG5000/numpy"%string = Some f).
  { subst fsm. unfold path_exists, os_mkdir. simpl norm.
    destruct (fs !! "data/ECG5000/numpy"%string) as [f|] eqn:E; [eauto|].
    rewrite lookup_insert_eq. eauto. }
  destruct Hm as (f & Hf).
  assert (E : path_exists "data/ECG5000/numpy" (serializer o fsm) = true).
  { unfold path_exists. simpl norm.
    now rewrite (serializer_other o fsm _ Hn), Hf. }
  unfold data_preparation, fetch_and_extract. rewrite Hd. simpl bind.
  rewrite E.
  rewrite (loader_frame to_numeric (serializer o fsm) fsm).
  - rewrite Hdf. simpl. rewrite Hrows. simpl. rewrite Ho. simpl.
    now rewrite serializer_idem.
  - apply serializer_other. simpl. intros K.
    repeat (destruct K as [K|K]; [discriminate|]). exact K.
  - apply serializer_other. simpl. intros K.
    repeat (destruct K as [K|K]; [discriminate|]). exact K.
Qed.

End WholeRun.

(** * Further properties of the Loader *)

Lemma last_is_space_snoc (l : list ascii) (c : ascii) :
  last_is_space (l ++ [c]) = isspace c.
Proof.
  induction l as [|x l IH]; [reflexivity|].
  simpl. destruct (l ++ [c]) eqn:E; [|exact IH].
  destruct l; discriminate.
Qed.

Lemma no_ws_run_snoc (l : list ascii) (c : ascii) :
  no_ws_run (l ++ [c]) = no_ws_run l && negb (last_is_space l && isspace c).
Proof.
  induction l as [|x l IH]; [reflexivity|].
  simpl. rewrite IH. destruct l as [|y l]; simpl.
  - now rewrite !andb_true_r.
  - now rewrite andb_assoc.
Qed.

Lemma first_is_space_app (l l' : list ascii) :
  l <> [] -> first_is_space (l ++ l') = first_is_space l.
Proof. destruct l; [congruence | reflexivity]. Qed.

Lemma lstrip_first (s : list ascii) : first_is_space (lstrip s) = false.
Proof.
  induction s as [|c s IH]; [reflexivity|].
  simpl. destruct (isspace c) eqn:E; [exact IH | simpl; exact E].
Qed.

Lemma lstrip_suffix (s : list ascii) : exists ws, s = ws ++ lstrip s.
Proof.
  induction s as [|c s (ws & IH)]; [exists []; reflexivity|].
  simpl. destruct (isspace c).
  - exists (c :: ws). simpl. now rewrite <- IH.
  - exists []. reflexivity.
Qed.

Lemma lstrip_all_space (s : list ascii) :
  forallb isspace s = true -> lstrip s = [].
Proof.
  induction s as [|c s IH]; [reflexivity|].
  simpl. intros H. apply andb_true_iff in H as [-> H]. auto.
Qed.

Lemma strip_all_space (s : list ascii) :
  forallb isspace s = true -> strip s = [].
Proof. intros H. unfold strip. now rewrite (lstrip_all_space s H). Qed.

(** A stripped line is empty or starts and ends with a character that
    is not whitespace. *)
Lemma strip_ends (l : list ascii) :
  strip l = [] \/
  (first_is_space (strip l) = false /\ last_is_space (strip l) = false).
Proof.
  unfold strip. set (t := lstrip l).
  destruct (lstrip (rev t)) as [|x v] eqn:E; [now left|]. right.
  pose proof (lstrip_first (rev t)) as F. rewrite E in F. simpl in F.
  destruct (lstrip_suffix (rev t)) as (ws & Hws). rewrite E in Hws.
  assert (Ht : t = rev (x :: v) ++ rev ws).
  { rewrite <- rev_app_distr, <- Hws. now rewrite rev_involutive. }
  split.
  - rewrite <- (first_is_space_app (rev (x :: v)) (rev ws)).
    + rewrite <- Ht. apply lstrip_first.
    + simpl. destruct (rev v); discriminate.
  - simpl. rewrite last_is_space_snoc. exact F.
Qed.

(** The fields [re.split] returns hold no separator. *)
Lemma re_split_from_no_run (s field ws : list ascii) :
  no_ws_run (rev field) = true -> last_is_space (rev field) = false ->
  List.Forall (fun f => no_ws_run f = true) (re_split_from field ws s).
Proof.
  revert field ws. induction s as [|c s IH]; intros field ws Hr Hl.
  - simpl. destruct ws as [|w [|w' ws]]; simpl.
    + repeat constructor. exact Hr.
    + repeat constructor. rewrite no_ws_run_snoc, Hr, Hl. reflexivity.
    + repeat constructor. exact Hr.
  - simpl. destruct (isspace c) eqn:Ec; [now apply IH|].
    destruct ws as [|w [|w' ws]].
    + apply IH; simpl.
      * rewrite no_ws_run_snoc, Hr, Ec. now rewrite andb_false_r.
      * rewrite last_is_space_snoc. exact Ec.
    + apply IH; simpl.
      * rewrite !no_ws_run_snoc, Hr, Hl, Ec. simpl. now rewrite andb_false_r.
      * rewrite last_is_space_snoc. exact Ec.
    + constructor; [exact Hr|]. apply IH; simpl; [reflexivity | exact Ec].
Qed.

Lemma clean_field_single (c : ascii) : isspace c = false -> clean_field [c].
Proof. intros H. unfold clean_field. simpl. rewrite H. repeat split. discriminate. Qed.

Lemma clean_field_snoc (l : list ascii) (c : ascii) :
  clean_field l -> isspace c = false -> clean_field (l ++ [c]).
Proof.
  intros (Hne & Hf & Hl & Hr) Hc. unfold clean_field.
  rewrite first_is_space_app by exact Hne.
  rewrite last_is_space_snoc, no_ws_run_snoc, Hr, Hl, Hc.
  repeat split; auto. destruct l; discriminate.
Qed.

Lemma clean_field_snoc2 (l : list ascii) (w c : ascii) :
  clean_field l -> isspace c = false -> clean_field ((l ++ [w]) ++ [c]).
Proof.
  intros (Hne & Hf & Hl & Hr) Hc. unfold clean_field.
  rewrite <- app_assoc. rewrite first_is_space_app by exact Hne.
  rewrite app_assoc.
  rewrite last_is_space_snoc, !no_ws_run_snoc, Hr, Hl, Hc.
  simpl. rewrite andb_false_r. repeat split; auto.
  destruct l; discriminate.
Qed.

Lemma re_split_from_clean (s field ws : list ascii) :
  (field = [] -> ws = [] /\ s <> [] /\ first_is_space s = false) ->
  (field <> [] -> clean_field (rev field)) ->
  match s with
  | [] => ws = []
  | _ :: _ => last_is_space s = false
  end ->
  List.Forall clean_field (re_split_from field ws s).
Proof.
  revert field ws. induction s as [|c s IH]; intros field ws I1 I2 I4.
  - subst ws. simpl.
    destruct field as [|x field]; [destruct (I1 eq_refl) as (_ & K & _); congruence|].
    constructor; [|constructor]. apply I2. discriminate.
  - simpl. destruct (isspace c) eqn:Ec.
    + assert (Hfield : field <> []).
      { intros ->. destruct (I1 eq_refl) as (_ & _ & K). simpl in K. congruence. }
      apply IH; [congruence | exact I2 |].
      destruct s as [|c' s]; [simpl in I4; congruence | exact I4].
    + assert (I4' : match s with [] => @nil ascii = [] | _ :: _ => last_is_space s = false end).
      { destruct s; [reflexivity | exact I4]. }
      destruct ws as [|w [|w' ws]].
      * apply IH; [discriminate | | exact I4'].
        intros _. simpl. destruct field as [|x field].
        -- now apply clean_field_single.
        -- apply clean_field_snoc; [|exact Ec]. apply I2. discriminate.
      * assert (Hfield : field <> []).
        { intros ->. destruct (I1 eq_refl) as (K & _). discriminate. }
        apply IH; [discriminate | | exact I4'].
        intros _. simpl. apply clean_field_snoc2; auto.
      * assert (Hfield : field <> []).
        { intros ->. destruct (I1 eq_refl) as (K & _). discriminate. }
        constructor; [auto|].
        apply IH; [discriminate | | exact I4'].
        intros _. now apply clean_field_single.
Qed.

(** X11.  Whatever the text, no field that [re.split] returns holds a
    whitespace run of two or more: the separator never survives inside
    a field. *)
Theorem fields_hold_no_separator (s : list ascii) :
  List.Forall (fun f => no_ws_run f = true) (re_split s).
Proof. unfold re_split. now apply re_split_from_no_run. Qed.

(** X12.  Every field of a line that [read_table] keeps is a proper
    value: since the line is stripped before it is split, the leading
    blanks of the dataset's lines give no empty first column, and no
    field is empty or starts or ends with whitespace. *)
Theorem kept_lines_have_clean_fields (l : list ascii) :
  is_blank (re_split (strip l)) = false ->
  List.Forall clean_field (re_split (strip l)).
Proof.
  intros Hb. destruct (strip_ends l) as [E|[Hf Hl]].
  - rewrite E in Hb. discriminate.
  - unfold re_split. apply re_split_from_clean.
    + intros _. split; [reflexivity|]. split; [|exact Hf].
      intros E. rewrite E in Hb. discriminate.
    + congruence.
    + destruct (strip l); [reflexivity | exact Hl].
Qed.

Lemma forallb_isspace_rev (l : list ascii) :
  forallb isspace l = true -> forallb isspace (rev l) = true.
Proof.
  induction l as [|c l IH]; [reflexivity|].
  simpl. intros H. apply andb_true_iff in H as [Hc H].
  rewrite forallb_app, (IH H). simpl. now rewrite Hc.
Qed.

Lemma lines_from_all_space (s line : list ascii) :
  forallb isspace line = true -> forallb isspace s = true ->
  List.Forall (fun l => forallb isspace l = true) (lines_from line s).
Proof.
  revert line. induction s as [|c s IH]; intros line Hl Hs; simpl.
  - repeat constructor. now apply forallb_isspace_rev.
  - simpl in Hs. apply andb_true_iff in Hs as [Hc Hs].
    destruct (Ascii.eqb c "010").
    + constructor; [now apply forallb_isspace_rev | now apply IH].
    + apply IH; [simpl; now rewrite Hc | exact Hs].
Qed.

(** A file of whitespace only has no row. *)
Lemma read_table_blank (to_numeric : list ascii -> Q) (text : string) :
  forallb isspace (list_ascii_of_string text) = true ->
  read_table to_numeric text = Raise EmptyDataError.
Proof.
  intros H. unfold read_table, lines.
  pose proof (lines_from_all_space (list_ascii_of_string text) [] eq_refl H) as F.
  assert (E : List.filter (fun r => negb (is_blank r))
                (map (fun l => re_split (strip l))
                     (lines_from [] (list_ascii_of_string text))) = []).
  { induction F as [|l ls Hl _ IH]; [reflexivity|].
    simpl. rewrite (strip_all_space l Hl). simpl. exact IH. }
  now rewrite E.
Qed.

(** ** Tables as text *)

Lemma is_digit_not_space (c : ascii) : is_digit c = true -> isspace c = false.
Proof.
  unfold is_digit, isspace. intros H.
  apply andb_true_iff in H as [H1 H2]. apply Nat.leb_le in H1, H2.
  apply orb_false_iff. split; apply andb_false_iff; right; apply Nat.leb_gt; lia.
Qed.

Lemma skip_digits_no_space (s : list ascii) :
  forallb (fun c => negb (isspace c)) (skip_digits s) = true ->
  forallb (fun c => negb (isspace c)) s = true.
Proof.
  induction s as [|c s IH]; [reflexivity|]. simpl.
  destruct (is_digit c) eqn:E; [|auto].
  intros H. rewrite (is_digit_not_space c E). simpl. auto.
Qed.

Lemma starts_with_digit_nonempty (s : list ascii) :
  starts_with_digit s = true -> s <> [].
Proof. destruct s; [discriminate | discriminate]. Qed.

Lemma exponent_ok_no_space (s : list ascii) :
  exponent_ok s = true -> forallb (fun c => negb (isspace c)) s = true.
Proof.
  destruct s as [|c r]; [reflexivity|]. simpl.
  intros H. apply andb_true_iff in H as [Hc H].
  apply Ascii.eqb_eq in Hc. subst c.
  apply andb_true_iff in H as [_ H].
  change (isspace "e") with false. simpl.
  destruct r as [|d t]; [reflexivity|].
  destruct (Ascii.eqb d "+" || Ascii.eqb d "-") eqn:Ed.
  - simpl. apply orb_true_iff in Ed.
    assert (Hd : isspace d = false).
    { destruct Ed as [Ed|Ed]; apply Ascii.eqb_eq in Ed; subst d; reflexivity. }
    rewrite Hd. simpl. apply skip_digits_no_space.
    destruct (skip_digits t); [reflexivity | discriminate].
  - apply skip_digits_no_space.
    destruct (skip_digits (d :: t)); [reflexivity | discriminate].
Qed.

Lemma fraction_ok_no_space (s : list ascii) :
  fraction_ok s = true -> forallb (fun c => negb (isspace c)) s = true.
Proof.
  destruct s as [|c r]; [reflexivity|]. unfold fraction_ok.
  destruct (Ascii.eqb c ".") eqn:Ec.
  - apply Ascii.eqb_eq in Ec. subst c. intros H.
    apply andb_true_iff in H as [_ H]. simpl.
    change (isspace ".") with false. simpl.
    apply skip_digits_no_space, exponent_ok_no_space, H.
  - apply exponent_ok_no_space.
Qed.

(** A numeral is not empty and holds no whitespace. *)
Lemma numeral_no_space (f : list ascii) :
  numeral f = true -> f <> [] /\ forallb (fun c => negb (isspace c)) f = true.
Proof.
  unfold numeral. destruct f as [|c r]; [discriminate|].
  intros H. split; [discriminate|].
  apply andb_true_iff in H as [_ H].
  apply fraction_ok_no_space, skip_digits_no_space in H.
  destruct (Ascii.eqb c "-") eqn:Ec; [|exact H].
  apply Ascii.eqb_eq in Ec. subst c. simpl.
  change (isspace "-") with false. exact H.
Qed.

Lemma no_space_first (f : list ascii) :
  forallb (fun c => negb (isspace c)) f = true -> first_is_space f = false.
Proof.
  destruct f as [|c f]; [reflexivity|]. simpl. intros H.
  apply andb_true_iff in H as [H _]. now apply negb_true_iff in H.
Qed.

Lemma no_space_last (f : list ascii) :
  forallb (fun c => negb (isspace c)) f = true -> last_is_space f = false.
Proof.
  induction f as [|c f IH]; [reflexivity|]. simpl. intros H.
  apply andb_true_iff in H as [Hc H].
  destruct f; [now apply negb_true_iff in Hc | auto].
Qed.

Lemma no_space_no_run (f : list ascii) :
  forallb (fun c => negb (isspace c)) f = true -> no_ws_run f = true.
Proof.
  induction f as [|c f IH]; [reflexivity|]. simpl. intros H.
  apply andb_true_iff in H as [Hc H]. apply negb_true_iff in Hc.
  rewrite Hc, (IH H). destruct f; reflexivity.
Qed.

Lemma spaces_isspace (n : nat) : forallb isspace (spaces n) = true.
Proof. induction n; simpl; auto. Qed.

Lemma lstrip_spaces (n : nat) (s : list ascii) :
  lstrip (spaces n ++ s) = lstrip s.
Proof. induction n; simpl; auto. Qed.

Lemma lstrip_id (s : list ascii) : first_is_space s = false -> lstrip s = s.
Proof. destruct s as [|c s]; [reflexivity|]. simpl. now intros ->. Qed.

Lemma last_is_space_app (l l' : list ascii) :
  l' <> [] -> last_is_space (l ++ l') = last_is_space l'.
Proof.
  intros H. induction l as [|c l IH]; [reflexivity|].
  simpl. destruct (l ++ l') eqn:E; [|exact IH].
  apply app_eq_nil in E as [_ E]. contradiction.
Qed.

Lemma first_is_space_rev (l : list ascii) :
  first_is_space (rev l) = last_is_space l.
Proof.
  induction l as [|c l IH]; [reflexivity|]. simpl.
  destruct l as [|d l]; [reflexivity|].
  rewrite <- IH. simpl. destruct (rev l ++ [d]) eqn:E; [|reflexivity].
  apply app_eq_nil in E as [_ E]. discriminate.
Qed.

Lemma body_ends (f : list ascii) (rest : list (nat * list ascii)) :
  numeral f = true ->
  List.Forall (fun nf => numeral (snd nf) = true) rest ->
  body_of f rest <> [] /\
  first_is_space (body_of f rest) = false /\
  last_is_space (body_of f rest) = false.
Proof.
  intros Hf Hrest. revert f Hf.
  induction Hrest as [|[n f'] rest Hf' Hrest IH]; intros f Hf;
    apply numeral_no_space in Hf as Hw; destruct Hw as [Hne Hns];
    unfold body_of.
  - simpl. rewrite app_nil_r. split; [exact Hne|].
    split; [now apply no_space_first | now apply no_space_last].
  - split; [|split].
    + destruct f; [contradiction | discriminate].
    + rewrite first_is_space_app by exact Hne. now apply no_space_first.
    + simpl in Hf'. destruct (IH f' Hf') as (B0 & _ & B2).
      cbn [render_fields]. fold (body_of f' rest).
      rewrite last_is_space_app.
      * rewrite last_is_space_app by exact B0. exact B2.
      * intros E. apply app_eq_nil in E as [_ E]. contradiction.
Qed.

Lemma strip_render_fields (sep n : nat) (f : list ascii)
    (rest : list (nat * list ascii)) :
  numeral f = true ->
  List.Forall (fun nf => numeral (snd nf) = true) rest ->
  strip (render_fields sep ((n, f) :: rest)) = body_of f rest.
Proof.
  intros Hf Hrest. destruct (body_ends f rest Hf Hrest) as (_ & B1 & B2).
  unfold strip. cbn [render_fields]. fold (body_of f rest).
  rewrite lstrip_spaces, (lstrip_id _ B1).
  rewrite lstrip_id by (now rewrite first_is_space_rev).
  apply rev_involutive.
Qed.

Lemma re_split_body (f : list ascii) (rest : list (nat * list ascii)) :
  numeral f = true ->
  List.Forall (fun nf => numeral (snd nf) = true) rest ->
  re_split (body_of f rest) = f :: map snd rest.
Proof.
  intros Hf Hrest. revert f Hf.
  induction Hrest as [|[n f'] rest Hf' Hrest IH]; intros f Hf;
    apply numeral_no_space in Hf as Hw; destruct Hw as [Hne Hns];
    unfold body_of.
  - simpl. rewrite app_nil_r. unfold re_split.
    rewrite re_split_from_single; [reflexivity | now apply no_space_no_run | now left].
  - simpl in Hf'. cbn [render_fields]. fold (body_of f' rest).
    destruct (body_ends f' rest Hf' Hrest) as (_ & B1 & _).
    unfold re_split at 1.
    rewrite re_split_from_sep.
    + rewrite (IH f' Hf'). fold (re_split f). unfold re_split at 1.
      rewrite re_split_from_single;
        [reflexivity | now apply no_space_no_run | now left].
    + apply spaces_isspace.
    + unfold spaces. rewrite repeat_length. lia.
    + now apply no_space_last.
    + reflexivity.
    + exact B1.
Qed.


(** ** Reading a rendered table back *)

Lemma lines_from_line (acc l rest : list ascii) :
  forallb (fun c => negb (Ascii.eqb c "010")) l = true ->
  lines_from acc (l ++ "010"%char :: rest) = (rev acc ++ l) :: lines_from [] rest.
Proof.
  revert acc. induction l as [|c l IH]; intros acc H; simpl.
  - now rewrite app_nil_r.
  - simpl in H. apply andb_true_iff in H as [Hc H].
    apply negb_true_iff in Hc. rewrite Hc, (IH _ H). simpl.
    now rewrite <- app_assoc.
Qed.

Lemma no_space_no_lf (f : list ascii) :
  forallb (fun c => negb (isspace c)) f = true ->
  forallb (fun c => negb (Ascii.eqb c "010")) f = true.
Proof.
  induction f as [|c f IH]; [reflexivity|]. simpl. intros H.
  apply andb_true_iff in H as [Hc H]. rewrite (IH H), andb_true_r.
  apply negb_true_iff. apply negb_true_iff in Hc.
  destruct (Ascii.eqb_spec c "010") as [->|]; [discriminate Hc | reflexivity].
Qed.

Lemma spaces_no_lf (n : nat) :
  forallb (fun c => negb (Ascii.eqb c "010")) (spaces n) = true.
Proof. induction n; simpl; auto. Qed.

Lemma render_fields_no_lf (sep : nat) (r : list (nat * list ascii)) :
  List.Forall (fun nf => numeral (snd nf) = true) r ->
  forallb (fun c => negb (Ascii.eqb c "010")) (render_fields sep r) = true.
Proof.
  intros H. revert sep. induction H as [|[n f] r Hf Hr IH]; intros sep;
    [reflexivity|].
  cbn [render_fields]. rewrite !forallb_app, spaces_no_lf, IH, andb_true_r.
  simpl in Hf. apply numeral_no_space in Hf as [_ Hf].
  now apply no_space_no_lf.
Qed.

Lemma lines_from_render (rows : list (list (nat * list ascii))) :
  List.Forall (fun r => List.Forall (fun nf => numeral (snd nf) = true) r) rows ->
  lines_from [] (flat_map (fun r => render_line r ++ ["010"%char]) rows)
  = map render_line rows ++ [[]].
Proof.
  induction 1 as [|r rows Hr Hrows IH]; [reflexivity|].
  cbn [flat_map map]. rewrite <- !app_assoc. cbn [app].
  rewrite lines_from_line by (now apply render_fields_no_lf).
  rewrite IH. reflexivity.
Qed.

Section ReadingBack.
Variable to_numeric : list ascii -> Q.

(** What [read_table] makes of a line that renders a row. *)
Lemma parse_render_line (r : list (nat * list ascii)) :
  r <> [] -> List.Forall (fun nf => numeral (snd nf) = true) r ->
  re_split (strip (render_line r)) = map snd r /\
  is_blank (map snd r) = false.
Proof.
  intros Hne Hr. destruct r as [|[n f] rest]; [contradiction|].
  apply List.Forall_cons_iff in Hr as [Hf Hrest]. simpl in Hf.
  unfold render_line. rewrite strip_render_fields by assumption.
  rewrite re_split_body by assumption. split; [reflexivity|].
  cbn [map snd]. destruct (map snd rest); [|reflexivity].
  simpl. apply numeral_no_space in Hf as [Hne' Hns].
  destruct f as [|c f]; [contradiction|]. simpl in *.
  apply andb_true_iff in Hns as [Hc _]. apply negb_true_iff in Hc.
  now rewrite Hc.
Qed.

Lemma rows_of_render (k : nat) (rows : list (list (nat * list ascii))) :
  0 < k ->
  List.Forall (fun r => length r = k /\
                        List.Forall (fun nf => numeral (snd nf) = true) r) rows ->
  List.filter (fun r => negb (is_blank r))
              (map (fun l => re_split (strip l)) (lines (render rows)))
  = map (map snd) rows.
Proof.
  intros Hk Hrows. unfold lines, render.
  rewrite list_ascii_of_string_of_list_ascii.
  rewrite lines_from_render.
  2:{ eapply List.Forall_impl; [|exact Hrows]. intros r [_ H]. exact H. }
  rewrite List.map_app, List.filter_app. cbn [map List.filter].
  change (negb (is_blank (re_split (strip [])))) with false. cbv iota.
  rewrite app_nil_r.
  induction Hrows as [|r rows [Hl Hr] Hrows IH]; [reflexivity|].
  assert (Hne : r <> []) by (intros ->; simpl in Hl; lia).
  destruct (parse_render_line r Hne Hr) as [E B].
  cbn [map List.filter]. rewrite E, B. cbn [negb]. now rewrite IH.
Qed.

(** Reading the text of a table gives back its numbers, the first line
    being a row like the others, under the column labels [0 .. k-1]. *)
Lemma read_table_render (k : nat) (rows : list (list (nat * list ascii))) :
  table k rows ->
  read_table to_numeric (render rows)
  = Ok {| columns := map ColInt (seq 0 k); values := numbers to_numeric rows |}.
Proof.
  intros (Hk & Hne & Hrows). unfold read_table.
  rewrite (rows_of_render k rows Hk Hrows).
  destruct rows as [|r rows]; [contradiction|].
  apply List.Forall_cons_iff in Hrows as [[Hl _] _].
  cbn [map]. rewrite length_map, Hl. f_equal. f_equal.
  unfold numbers. cbn [map]. rewrite !map_map. f_equal.
  apply map_ext. intros r'. now rewrite map_map.
Qed.

End ReadingBack.

(** C7.  The separator of the Loader is a whitespace run of two or more
    characters: text without such a run is a single field, so one space
    does not separate, and such a run between two pieces of text splits
    them.  A file that holds a table of numerals, one row per line, the
    fields two or more spaces apart after any number of leading spaces,
    is read back as that table, the first line being a row like the
    others and the columns numbered from 0.  The Loader reads the two
    fixed files, puts the rows of the second table after those of the
    first, and relabels column 0 as [Class], leaving the other labels as
    they are. *)
Theorem loader_parses_concatenates_renames (to_numeric : list ascii -> Q) :
  (forall s, no_ws_run s = true -> re_split s = [s]) /\
  (forall a ws b,
      forallb isspace ws = true -> 2 <= length ws ->
      last_is_space a = false -> first_is_space b = false ->
      re_split (a ++ ws ++ b) = re_split a ++ re_split b) /\
  (forall n a b,
      2 <= n -> last_is_space a = false -> first_is_space b = false ->
      re_split (a ++ repeat " "%char n ++ b) = re_split a ++ re_split b) /\
  (forall k rows,
      table k rows ->
      read_table to_numeric (render rows)
      = Ok {| columns := map ColInt (seq 0 k);
              values := numbers to_numeric rows |}) /\
  (forall fs k train test,
      table k train -> table k test ->
      fs !! "data/ECG5000/ECG5000_TRAIN.txt"%string = Some (Text (render train)) ->
      fs !! "data/ECG5000/ECG5000_TEST.txt"%string = Some (Text (render test)) ->
      loader to_numeric fs
      = Ok {| columns := ColStr "Class" :: map ColInt (seq 1 (k - 1));
              values := numbers to_numeric train ++ numbers to_numeric test |}).
Proof.
  split; [|split; [|split; [|split]]].
  - intros s H. unfold re_split. rewrite re_split_from_single; auto.
  - intros a ws b Hws Hlen Ha Hb. unfold re_split at 1.
    apply re_split_from_sep; auto.
  - intros n a b Hn Ha Hb. unfold re_split at 1.
    apply re_split_from_sep; auto.
    + clear. induction n; simpl; auto.
    + now rewrite repeat_length.
  - intros k rows H. now apply read_table_render.
  - intros fs k train test Htr Hte Ftr Fte.
    unfold loader, read_text. simpl norm. rewrite Ftr, Fte. simpl bind.
    rewrite (read_table_render to_numeric k train Htr). simpl bind.
    rewrite (read_table_render to_numeric k test Hte). simpl bind.
    unfold rename_first, concat. cbn [columns values].
    rewrite Nat.leb_refl.
    destruct Htr as (Hk & _). destruct k as [|k]; [lia|].
    replace (S k - 1) with k by lia. reflexivity.
Qed.

(** The recogniser of numerals on a few fields. *)
Example numeral_examples :
  map (fun s => numeral (list_ascii_of_string s))
      [ "1"; "-2.5"; "1.0000000e+00"; "-1.1252183e-01"; "";
        "1e"; "1.2.3"; "abc"; "1 2"; "--1" ]%string
  = [ true; true; true; true; false; false; false; false; false; false ].
Proof. vm_compute. reflexivity. Qed.

(** The small training file is the text of [toy_train_rows]. *)
Example toy_train_txt_rendered : render toy_train_rows = toy_train_txt.
Proof. vm_compute. reflexivity. Qed.

Lemma loader_parses_concatenates_renames_witness :
  re_split (list_ascii_of_string "1.0 -2.5") = [list_ascii_of_string "1.0 -2.5"] /\
  re_split (list_ascii_of_string "1.0  -2.5   3.0")
  = map list_ascii_of_string ["1.0"; "-2.5"; "3.0"]%string /\
  read_table toy_numeric toy_train_txt
  = Ok {| columns := [ColInt 0; ColInt 1; ColInt 2];
          values := numbers toy_numeric toy_train_rows |} /\
  loader toy_numeric rendered_fs
  = Ok {| columns := [ColStr "Class"; ColInt 1; ColInt 2];
          values := numbers toy_numeric toy_train_rows
                    ++ numbers toy_numeric toy_test_rows |}.
Proof.
  destruct (loader_parses_concatenates_renames toy_numeric)
    as (Hone & _ & Hsp & Hread & Hload).
  assert (T1 : table 3 toy_train_rows).
  { split; [lia|]. split; [discriminate|].
    repeat constructor. }
  assert (T2 : table 3 toy_test_rows).
  { split; [lia|]. split; [discriminate|].
    repeat constructor. }
  split; [|split; [|split]].
  - apply Hone. reflexivity.
  - change (list_ascii_of_string "1.0  -2.5   3.0")
      with (list_ascii_of_string "1.0" ++ repeat " "%char 2
            ++ list_ascii_of_string "-2.5   3.0").
    rewrite Hsp by (try reflexivity; lia).
    change (list_ascii_of_string "-2.5   3.0")
      with (list_ascii_of_string "-2.5" ++ repeat " "%char 3
            ++ list_ascii_of_string "3.0").
    rewrite Hsp by (try reflexivity; lia).
    rewrite !Hone by reflexivity. reflexivity.
  - exact (Hread 3 toy_train_rows T1).
  - exact (Hload rendered_fs 3 toy_train_rows toy_test_rows T1 T2
             eq_refl eq_refl).
Defined.

Section LoaderFailures.
Context {RS : RandomState}.
Variable to_numeric : list ascii -> Q.
Variable network : string -> option file.

(** X13.  Without download and with [data/ECG5000] a directory, a
    missing training file stops the run with [FileNotFoundError], a
    training file of whitespace only with [EmptyDataError], and a
    missing test file with [FileNotFoundError] once a training file that
    holds a table of numerals has been parsed: nothing is saved. *)
Theorem missing_or_blank_input_raises (g : rng) (a : args) (fs : gmap string file) :
  download a = 0%Z ->
  fs !! "data/ECG5000"%string = Some Directory ->
  (fs !! "data/ECG5000/ECG5000_TRAIN.txt"%string = None ->
   data_preparation to_numeric network g a fs = Raise FileNotFoundError) /\
  (forall t, fs !! "data/ECG5000/ECG5000_TRAIN.txt"%string = Some (Text t) ->
             forallb isspace (list_ascii_of_string t) = true ->
             data_preparation to_numeric network g a fs = Raise EmptyDataError) /\
  (forall k rows,
      table k rows ->
      fs !! "data/ECG5000/ECG5000_TRAIN.txt"%string = Some (Text (render rows)) ->
      fs !! "data/ECG5000/ECG5000_TEST.txt"%string = None ->
      data_preparation to_numeric network g a fs = Raise FileNotFoundError).
Proof.
  intros Hd _.
  assert (E : forall r,
             loader to_numeric fs = Raise r ->
             data_preparation to_numeric network g a fs = Raise r).
  { intros r Hr. unfold data_preparation, fetch_and_extract.
    rewrite Hd. simpl bind.
    rewrite (loader_frame to_numeric _ fs); [now rewrite Hr | |];
      unfold path_exists, os_mkdir; simpl norm;
      destruct (fs !! "data/ECG5000/numpy"%string); try reflexivity;
      now rewrite lookup_insert_ne. }
  split; [|split].
  - intros H. apply E. unfold loader, read_text. simpl norm. now rewrite H.
  - intros t H Hb. apply E. unfold loader, read_text. simpl norm.
    rewrite H. simpl. now rewrite (read_table_blank to_numeric t Hb).
  - intros k rows Htab H Ht. apply E. unfold loader, read_text. simpl norm.
    rewrite H. simpl. rewrite (read_table_render to_numeric k rows Htab).
    simpl. now rewrite Ht.
Qed.

End LoaderFailures.

(** * Further properties of the Fetcher and the Extractor *)

(** What a completed sequence of removals leaves. *)
Lemma remove_all_Ok (ps : list string) (fs fs' : gmap string file) :
  remove_all ps fs = Ok fs' ->
  (forall p, In p ps -> fs' !! norm p = None) /\
  (forall q, ~ In q (map norm ps) -> fs' !! q = fs !! q).
Proof.
  revert fs. induction ps as [|p ps IH]; intros fs H; simpl in H.
  - injection H as <-. split; [intros p [] | reflexivity].
  - apply bind_Ok in H as (fs1 & H1 & H).
    apply os_remove_Ok in H1 as [-> _].
    destruct (IH _ H) as [IH1 IH2]. split.
    + intros q [<-|Hq]; [|now apply IH1].
      destruct (in_dec string_dec (norm p) (map norm ps)) as [Hin|Hout].
      * apply in_map_iff in Hin as (p' & E & Hp'). rewrite <- E. now apply IH1.
      * rewrite (IH2 _ Hout). apply lookup_delete_eq.
    + intros q Hq. simpl in Hq.
      rewrite IH2 by tauto. apply lookup_delete_ne. tauto.
Qed.

Lemma extractall_other (members : list (string * string)) (save_path : string)
    (fs : gmap string file) (k : string) :
  (forall m, In m members -> norm (save_path ++ "/" ++ fst m)%string <> k) ->
  extractall members save_path fs !! k = fs !! k.
Proof.
  unfold extractall. revert fs.
  induction members as [|m members IH]; intros fs H; [reflexivity|].
  simpl. rewrite IH by (intros m' Hm'; apply H; now right).
  apply lookup_insert_ne. apply H. now left.
Qed.

Lemma extractall_member (members : list (string * string)) (save_path : string)
    (fs : gmap string file) (name data : string) :
  (forall m, In m members ->
     norm (save_path ++ "/" ++ fst m)%string = norm (save_path ++ "/" ++ name)%string ->
     fst m = name) ->
  NoDup (map fst members) -> In (name, data) members ->
  extractall members save_path fs !! norm (save_path ++ "/" ++ name)%string
  = Some (Text data).
Proof.
  intros Hinj. revert fs.
  induction members as [|m members IH]; intros fs Hnd Hin; [destruct Hin|].
  simpl in Hnd. apply NoDup_cons in Hnd as [Hm Hnd].
  change (extractall (m :: members) save_path fs)
    with (extractall members save_path
            (<[norm (save_path ++ "/" ++ fst m)%string := Text (snd m)]> fs)).
  destruct Hin as [->|Hin].
  - rewrite extractall_other; [apply lookup_insert_eq|].
    intros m' Hm' E. apply Hm. simpl.
    rewrite <- (Hinj m' (or_intror Hm') E).
    apply list_elem_of_In, in_map, Hm'.
  - apply IH; [|exact Hnd | exact Hin].
    intros m' Hm'. apply Hinj. now right.
Qed.

Lemma append_inj_r (p a b : string) : (p ++ a = p ++ b)%string -> a = b.
Proof.
  induction p as [|c p IH]; simpl; intros H; [exact H|].
  injection H as H. auto.
Qed.

Lemma under_data_dir_inj (n1 n2 : string) :
  ("data/ECG5000" ++ "/" ++ n1 = "data/ECG5000" ++ "/" ++ n2)%string -> n1 = n2.
Proof. intros H. now do 2 apply append_inj_r in H. Qed.

Lemma fetch_and_extract_zip (network : string -> option file) (a : args)
    (fs : gmap string file) (members : list (string * string)) :
  download a <> 0%Z ->
  network "http://www.timeseriesclassification.com/Downloads/ECG5000.zip"%string
  = Some (Zip members) ->
  fetch_and_extract network a fs
  = remove_all useless_files
      (extractall members "data/ECG5000"
         (<["data/ECG5000.zip"%string := Zip members]>
            (if path_exists "data/ECG5000" fs then fs
             else os_mkdir "data/ECG5000" fs))).
Proof.
  intros Hd Hnet. unfold fetch_and_extract. apply Z.eqb_neq in Hd.
  rewrite Hd. simpl negb. cbv iota. unfold download_url. rewrite Hnet.
  unfold bind, extractor. simpl norm. now rewrite lookup_insert_eq.
Qed.

Section FetchMore.
Context {RS : RandomState}.
Variable to_numeric : list ascii -> Q.
Variable network : string -> option file.

(** X14.  With download set, and [data] a directory in which the
    archive and the output directory can be written, a request that
    fails stops the run with [ConnectionError], and a response that is
    not an archive stops it with [BadZipFile], before any file is
    removed or read; with download at 0 the network is not consulted at
    all. *)
Theorem fetch_failures (g : rng) (a : args) (fs : gmap string file) :
  (download a <> 0%Z ->
   download_ready fs = true ->
   network "http://www.timeseriesclassification.com/Downloads/ECG5000.zip"%string = None ->
   fetch_and_extract network a fs = Raise ConnectionError /\
   data_preparation to_numeric network g a fs = Raise ConnectionError) /\
  (forall t, download a <> 0%Z ->
     download_ready fs = true ->
     network "http://www.timeseriesclassification.com/Downloads/ECG5000.zip"%string
     = Some (Text t) ->
     fetch_and_extract network a fs = Raise BadZipFile /\
     data_preparation to_numeric network g a fs = Raise BadZipFile) /\
  (forall network', download a = 0%Z ->
     data_preparation to_numeric network g a fs
     = data_preparation to_numeric network' g a fs).
Proof.
  split; [|split].
  - intros Hd _ Hnet.
    assert (E : fetch_and_extract network a fs = Raise ConnectionError).
    { unfold fetch_and_extract, download_url. apply Z.eqb_neq in Hd.
      now rewrite Hd, Hnet. }
    split; [exact E|]. unfold data_preparation. now rewrite E.
  - intros t Hd _ Hnet.
    assert (E : fetch_and_extract network a fs = Raise BadZipFile).
    { unfold fetch_and_extract, download_url. apply Z.eqb_neq in Hd.
      rewrite Hd, Hnet. simpl negb. cbv iota. unfold bind, extractor.
      simpl norm. now rewrite lookup_insert_eq. }
    split; [exact E|]. unfold data_preparation. now rewrite E.
  - intros network' Hd. unfold data_preparation, fetch_and_extract.
    now rewrite Hd.
Qed.

(** X15.  With download set, [data] a directory in which the archive
    and the output directory can be written, and an archive whose
    members have plain and distinct names, a completed fetch-and-extract
    leaves none of the six removed files, holds every other member under
    [data/ECG5000] with the archive's content, old files of the same
    name being replaced, and keeps every path that is neither a member
    nor the output directory as it was. *)
Theorem extracted_files_replace_old_ones (a : args) (fs fs' : gmap string file)
    (members : list (string * string)) :
  download a <> 0%Z ->
  network "http://www.timeseriesclassification.com/Downloads/ECG5000.zip"%string
  = Some (Zip members) ->
  download_ready fs = true ->
  extractable members fs = true ->
  NoDup (map fst members) ->
  fetch_and_extract network a fs = Ok fs' ->
  (forall p, In p useless_files -> fs' !! p = None) /\
  (forall name data,
      In (name, data) members ->
      ~ In ("data/ECG5000/" ++ name)%string useless_files ->
      fs' !! ("data/ECG5000/" ++ name)%string = Some (Text data)) /\
  (forall p,
      ~ In p useless_files -> p <> "data/ECG5000"%string ->
      (forall name, In name (map fst members) -> p <> ("data/ECG5000/" ++ name)%string) ->
      fs' !! p = fs !! p).
Proof.
  intros Hd Hnet _ _ Hnd H.
  rewrite (fetch_and_extract_zip network a fs members Hd Hnet) in H.
  apply remove_all_Ok in H as [R1 R2].
  assert (Hnorm : map norm useless_files = useless_files) by reflexivity.
  rewrite Hnorm in R2.
  split; [|split].
  - intros p Hp. specialize (R1 p Hp).
    assert (E : norm p = p).
    { simpl in Hp. repeat (destruct Hp as [<-|Hp]; [reflexivity|]). destruct Hp. }
    now rewrite E in R1.
  - intros name data Hin Hout. rewrite (R2 _ Hout).
    apply (extractall_member members "data/ECG5000" _ name data); auto.
    intros m _ E. now apply under_data_dir_inj.
  - intros p Hout Hdir Hmem. rewrite (R2 _ Hout).
    rewrite extractall_other.
    + rewrite lookup_insert_ne.
      * unfold path_exists, os_mkdir. simpl norm.
        destruct (fs !! "data/ECG5000"%string); [reflexivity|].
        now rewrite lookup_insert_ne.
      * intros <-. apply Hout. simpl. tauto.
    + intros m Hm E. apply (Hmem (fst m)); [now apply in_map|].
      now rewrite <- E.
Qed.

End FetchMore.

(** ** Writing the response in chunks *)

Lemma write_chunks_from (chunks : list (list ascii)) (fd : list ascii) :
  fold_left (fun fd chunk => fd ++ chunk) chunks fd = fd ++ write_chunks chunks.
Proof.
  unfold write_chunks. revert fd.
  induction chunks as [|c chunks IH]; intros fd; simpl.
  - now rewrite app_nil_r.
  - rewrite (IH (fd ++ c)), (IH c). now rewrite app_assoc.
Qed.

Lemma iter_content_written (fuel chunk_size : nat) (body : list ascii) :
  0 < chunk_size -> length body <= fuel ->
  write_chunks (iter_content fuel chunk_size body) = body /\
  List.Forall (fun chunk => 0 < length chunk <= chunk_size)
              (iter_content fuel chunk_size body).
Proof.
  intros Hc. revert body.
  induction fuel as [|fuel IH]; intros body Hf.
  - destruct body; [split; [reflexivity | constructor] | simpl in Hf; lia].
  - destruct body as [|b body]; [split; [reflexivity | constructor]|].
    cbn [iter_content].
    assert (Hs : length (skipn chunk_size (b :: body)) <= fuel).
    { rewrite length_skipn. simpl in *. lia. }
    destruct (IH _ Hs) as [W F]. split.
    + unfold write_chunks. cbn [fold_left]. rewrite write_chunks_from, W.
      apply firstn_skipn.
    + constructor; [|exact F].
      rewrite length_firstn. simpl length. lia.
Qed.

(** X16.  [download_url] writes the response unchanged: for every
    positive chunk size the pieces, each between one and [chunk_size]
    bytes, written one after the other give the body. *)
Theorem download_writes_the_body (chunk_size : nat) (body : list ascii) :
  0 < chunk_size ->
  downloaded_bytes chunk_size body = body /\
  List.Forall (fun chunk => 0 < length chunk <= chunk_size)
              (iter_content (length body) chunk_size body).
Proof.
  intros Hc. unfold downloaded_bytes.
  apply iter_content_written; [exact Hc | lia].
Qed.

(** * The further properties on the small dataset *)

Lemma partitions_cover_the_table_witness :
  partition (RS := reversing_rng) 0%Z toy_args toy_df = Ok (toy_arrays, 0%Z) /\
  Permutation (records (X_train toy_arrays) (y_train toy_arrays)
               ++ records (X_val toy_arrays) (y_val toy_arrays)
               ++ records (X_test toy_arrays) (y_test toy_arrays))
              (map (fun r => (signal r, Class r)) toy_df) /\
  length (X_train toy_arrays) + length (X_val toy_arrays) + length (X_test toy_arrays)
  = length toy_df.
Proof.
  assert (H : partition (RS := reversing_rng) 0%Z toy_args toy_df
              = Ok (toy_arrays, 0%Z)) by (vm_compute; reflexivity).
  split; [exact H|].
  exact (partitions_cover_the_table (RS := reversing_rng) 0%Z toy_args toy_df
           toy_arrays 0%Z H).
Defined.

Lemma normal_part_sizes_witness :
  Binary64.split_rows (RS := reversing_rng) 0%Z args64_tr06 toy_df
  = Ok (splits64_tr06, 0%Z) /\
  exists rest : nat,
    math_ceil ((1 - 0x1.3333333333333p-1) * float_of_nat 10) = Some (Z.of_nat rest) /\
    math_ceil ((1 - 0.5) * float_of_nat rest)
    = Some (Z.of_nat (length (Binary64.X_test_n splits64_tr06))) /\
    length (Binary64.X_train_n splits64_tr06) = 10 - rest /\
    length (Binary64.X_val_n splits64_tr06)
    = rest - length (Binary64.X_test_n splits64_tr06) /\
    0 < length (Binary64.X_test_n splits64_tr06) /\
    length (Binary64.X_test_n splits64_tr06) < rest /\ rest < 10.
Proof.
  assert (H : Binary64.split_rows (RS := reversing_rng) 0%Z args64_tr06 toy_df
              = Ok (splits64_tr06, 0%Z)) by (vm_compute; reflexivity).
  split; [exact H|].
  exact (normal_part_sizes (RS := reversing_rng) 0%Z args64_tr06 toy_df
           splits64_tr06 0%Z H).
Defined.

(** With a training share of 0.6 on ten normal rows Python computes
    [(1 - 0.6) * 10 = 4.0]: four rows are set aside and six train. *)
Example six_of_ten_rows_train :
  math_ceil ((1 - 0x1.3333333333333p-1) * float_of_nat 10) = Some 4%Z /\
  length (Binary64.X_train_n splits64_tr06) = 6 /\
  length (Binary64.X_val_n splits64_tr06) = 2 /\
  length (Binary64.X_test_n splits64_tr06) = 2.
Proof. repeat split; vm_compute; reflexivity. Qed.


Lemma partitions_are_not_empty_witness :
  partition (RS := reversing_rng) 0%Z toy_args toy_df = Ok (toy_arrays, 0%Z) /\
  0 < length (y_train toy_arrays) /\ 0 < length (y_val_p toy_arrays) /\
  (exists c, In c (y_val toy_arrays) /\ (c == 1)%Q) /\
  (exists c, In c (y_val toy_arrays) /\ ~ (c == 1)%Q) /\
  (exists c, In c (y_test toy_arrays) /\ (c == 1)%Q) /\
  (exists c, In c (y_test toy_arrays) /\ ~ (c == 1)%Q).
Proof.
  assert (H : partition (RS := reversing_rng) 0%Z toy_args toy_df
              = Ok (toy_arrays, 0%Z)) by (vm_compute; reflexivity).
  split; [exact H|].
  exact (partitions_are_not_empty (RS := reversing_rng) 0%Z toy_args toy_df
           toy_arrays 0%Z H).
Defined.

Lemma anomalous_labels_requirements_witness :
  length (unique (map Class (anomaly toy_splits))) <= length (X_val_a toy_splits) /\
  length (unique (map Class (anomaly toy_splits))) <= length (X_test_a toy_splits) /\
  raises (split_rows (RS := reversing_rng) 0%Z toy_args lonely_df).
Proof.
  destruct (anomalous_labels_requirements (RS := reversing_rng) 0%Z toy_args toy_df)
    as [H _].
  destruct (H toy_splits 0%Z) as (_ & H1 & H2); [vm_compute; reflexivity|].
  split; [exact H1|]. split; [exact H2|].
  destruct (anomalous_labels_requirements (RS := reversing_rng) 0%Z toy_args lonely_df)
    as [_ R].
  apply R. exists (mk_row 4 40). split; [|split].
  - unfold lonely_df. apply in_or_app. right. now left.
  - reflexivity.
  - vm_compute. lia.
Defined.

Lemma normal_parts_ignore_perc_val_an_witness :
  X_train (assemble toy_splits) = map signal (X_train_n toy_splits) /\
  exists s2,
    split_rows (RS := reversing_rng) 7%Z toy_args_b toy_df = Ok (s2, 7%Z) /\
    X_train (assemble toy_splits) = X_train (assemble s2) /\
    X_val_p (assemble toy_splits) = X_val_p (assemble s2).
Proof.
  split; [reflexivity|].
  destruct (split_rows (RS := reversing_rng) 7%Z toy_args_b toy_df)
    as [[s2 g2]|e] eqn:E; [|vm_compute in E; discriminate].
  assert (G : g2 = 7%Z) by (vm_compute in E; congruence).
  subst g2. exists s2. split; [reflexivity|].
  assert (H1 : split_rows (RS := reversing_rng) 0%Z toy_args toy_df
               = Ok (toy_splits, 0%Z)) by (vm_compute; reflexivity).
  destruct (normal_parts_ignore_perc_val_an (RS := reversing_rng) 0%Z 7%Z
              toy_args toy_args_b toy_df toy_splits s2 0%Z 7%Z
              eq_refl eq_refl H1 E) as (_ & A & _ & B & _).
  auto.
Defined.

Lemma run_touches_only_its_outputs_witness :
  serializer toy_arrays (os_mkdir "data/ECG5000/numpy" toy_fs)
  !! "data/ECG5000/ECG5000_TRAIN.txt"%string
  = toy_fs !! "data/ECG5000/ECG5000_TRAIN.txt"%string.
Proof.
  destruct (run_touches_only_its_outputs (RS := reversing_rng) toy_numeric toy_network
              0%Z toy_args toy_fs
              (serializer toy_arrays (os_mkdir "data/ECG5000/numpy" toy_fs)) 0%Z)
    as (F & _); [reflexivity | vm_compute; reflexivity |].
  apply F; [discriminate|].
  simpl. intros K. repeat (destruct K as [K|K]; [discriminate|]). exact K.
Defined.

Lemma rerun_is_idempotent_witness :
  data_preparation (RS := reversing_rng) toy_numeric toy_network 0%Z toy_args
    (serializer toy_arrays (os_mkdir "data/ECG5000/numpy" toy_fs))
  = Ok (serializer toy_arrays (os_mkdir "data/ECG5000/numpy" toy_fs), 0%Z).
Proof.
  apply (rerun_is_idempotent (RS := reversing_rng) toy_numeric toy_network
           0%Z toy_args toy_fs); [reflexivity | vm_compute; reflexivity].
Defined.

Lemma kept_lines_have_clean_fields_witness :
  re_split (strip toy_line) = map list_ascii_of_string ["1"; "10"; "11"]%string /\
  List.Forall clean_field (re_split (strip toy_line)).
Proof.
  split; [vm_compute; reflexivity|].
  apply (kept_lines_have_clean_fields toy_line). vm_compute. reflexivity.
Defined.

Lemma missing_or_blank_input_raises_witness :
  data_preparation (RS := reversing_rng) toy_numeric toy_network 0%Z toy_args dir_fs
  = Raise FileNotFoundError /\
  data_preparation (RS := reversing_rng) toy_numeric toy_network 0%Z toy_args blank_fs
  = Raise EmptyDataError /\
  data_preparation (RS := reversing_rng) toy_numeric toy_network 0%Z toy_args train_only_fs
  = Raise FileNotFoundError.
Proof.
  split; [|split].
  - destruct (missing_or_blank_input_raises (RS := reversing_rng) toy_numeric
                toy_network 0%Z toy_args dir_fs eq_refl eq_refl) as (H & _).
    apply H. vm_compute. reflexivity.
  - destruct (missing_or_blank_input_raises (RS := reversing_rng) toy_numeric
                toy_network 0%Z toy_args blank_fs eq_refl eq_refl) as (_ & H & _).
    apply (H (nl ++ "   " ++ nl)%string); vm_compute; reflexivity.
  - destruct (missing_or_blank_input_raises (RS := reversing_rng) toy_numeric
                toy_network 0%Z toy_args train_only_fs eq_refl eq_refl)
      as (_ & _ & H).
    apply (H 3 toy_train_rows); [|vm_compute; reflexivity | vm_compute; reflexivity].
    split; [lia|]. split; [discriminate|]. repeat constructor.
Defined.

Lemma fetch_failures_witness :
  data_preparation (RS := reversing_rng) toy_numeric failing_network 0%Z
    args_download empty_fs = Raise ConnectionError /\
  data_preparation (RS := reversing_rng) toy_numeric text_network 0%Z
    args_download empty_fs = Raise BadZipFile /\
  data_preparation (RS := reversing_rng) toy_numeric failing_network 0%Z toy_args toy_fs
  = data_preparation (RS := reversing_rng) toy_numeric toy_network 0%Z toy_args toy_fs.
Proof.
  split; [|split].
  - destruct (fetch_failures (RS := reversing_rng) toy_numeric failing_network
                0%Z args_download empty_fs) as (H & _).
    apply H; [discriminate | reflexivity | reflexivity].
  - destruct (fetch_failures (RS := reversing_rng) toy_numeric text_network
                0%Z args_download empty_fs) as (_ & H & _).
    apply (H "<html>not found</html>"%string);
      [discriminate | reflexivity | reflexivity].
  - destruct (fetch_failures (RS := reversing_rng) toy_numeric failing_network
                0%Z toy_args toy_fs) as (_ & _ & H).
    apply H. reflexivity.
Defined.

Lemma extracted_files_replace_old_ones_witness :
  stale_fs !! "data/ECG5000/ECG5000_TRAIN.txt"%string = Some (Text "stale") /\
  exists fs',
    fetch_and_extract toy_network args_download stale_fs = Ok fs' /\
    fs' !! "data/ECG5000/ECG5000_TRAIN.txt"%string = Some (Text toy_train_txt) /\
    fs' !! "data/ECG5000/ECG5000.txt"%string = None /\
    fs' !! "data"%string = stale_fs !! "data"%string.
Proof.
  split; [vm_compute; reflexivity|].
  destruct (fetch_and_extract toy_network args_download stale_fs) as [fs'|e] eqn:E;
    [|vm_compute in E; discriminate].
  exists fs'. split; [reflexivity|].
  assert (Hnd : NoDup (map fst toy_members)).
  { apply (bool_decide_unpack _). vm_compute. exact I. }
  destruct (extracted_files_replace_old_ones toy_network args_download stale_fs fs'
              toy_members ltac:(discriminate) eq_refl eq_refl eq_refl Hnd E)
    as (H1 & H2 & H3).
  split; [|split].
  - apply (H2 "ECG5000_TRAIN.txt"%string toy_train_txt).
    + simpl. tauto.
    + simpl. intros K. repeat (destruct K as [K|K]; [discriminate|]). exact K.
  - apply H1. simpl. tauto.
  - apply H3.
    + simpl. intros K. repeat (destruct K as [K|K]; [discriminate|]). exact K.
    + discriminate.
    + intros name _. discriminate.
Defined.

Lemma download_writes_the_body_witness :
  iter_content (length toy_body) 4 toy_body
  = map list_ascii_of_string ["ECG5"; "000 "; "arch"; "ive"]%string /\
  downloaded_bytes 4 toy_body = toy_body.
Proof.
  split; [vm_compute; reflexivity|].
  apply (download_writes_the_body 4 toy_body). lia.
Defined.

(** * The normal-only validation set *)

Lemma filter_all {A : Type} (f : A -> bool) (l : list A) :
  (forall x, In x l -> f x = true) -> List.filter f l = l.
Proof.
  induction l as [|x l IH]; intros H; [reflexivity|].
  simpl. rewrite (H x (or_introl eq_refl)). f_equal.
  apply IH. intros y Hy. apply H. now right.
Qed.

Lemma filter_none {A : Type} (f : A -> bool) (l : list A) :
  (forall x, In x l -> f x = false) -> List.filter f l = [].
Proof.
  induction l as [|x l IH]; intros H; [reflexivity|].
  simpl. rewrite (H x (or_introl eq_refl)).
  apply IH. intros y Hy. apply H. now right.
Qed.

Section ValP.
Context {RS : RandomState}.

(** X17.  [val_p] is exactly the normal part of [val]: keeping the
    records of [val] whose label is 1 gives the records of [val_p], in
    the same order. *)
Theorem val_p_is_the_normal_part_of_val (global : rng) (a : args) (df : list row)
    (o : arrays) (g : rng) :
  partition global a df = Ok (o, g) ->
  List.filter (fun r => Qeq_bool (snd r) 1) (records (X_val o) (y_val o))
  = records (X_val_p o) (y_val_p o).
Proof.
  intros H. apply partition_Ok in H as (s & Hs & ->).
  apply split_rows_labels in Hs as [Hn Ha]. simpl.
  rewrite records_app by (now rewrite !length_map).
  rewrite !records_map, List.filter_app.
  rewrite filter_all, filter_none; [apply app_nil_r | |].
  - intros r Hr. apply in_map_iff in Hr as (r' & <- & Hr'). simpl.
    apply (Ha r'). apply in_or_app. now left.
  - intros r Hr. apply in_map_iff in Hr as (r' & <- & Hr'). simpl.
    apply (Hn r'). apply in_or_app. right. apply in_or_app. now left.
Qed.

End ValP.

Lemma val_p_is_the_normal_part_of_val_witness :
  partition (RS := reversing_rng) 0%Z toy_args toy_df = Ok (toy_arrays, 0%Z) /\
  List.filter (fun r => Qeq_bool (snd r) 1)
              (records (X_val toy_arrays) (y_val toy_arrays))
  = records (X_val_p toy_arrays) (y_val_p toy_arrays).
Proof.
  assert (H : partition (RS := reversing_rng) 0%Z toy_args toy_df
              = Ok (toy_arrays, 0%Z)) by (vm_compute; reflexivity).
  split; [exact H|].
  exact (val_p_is_the_normal_part_of_val (RS := reversing_rng) 0%Z toy_args toy_df
           toy_arrays 0%Z H).
Defined.
